(** * The recipe delivery manager of [delivery_manager.py]

    A shallow embedding of the Python module: the event primitive, the
    kitchen data classes, the plate and the manager class, followed by the
    properties of the specification.

    The module has one manager class.  The statement [class
    KitchenGameManager:] is followed, in the same class body, by the
    delivery methods and attributes (there is no second [class]
    statement), so the [__init__] and [get_instance] written first are
    rebound by the later ones, a manager object has no [_is_game_playing]
    attribute until [start_game] or [stop_game] has run on it, and the
    gate [update] reads is that attribute of the registered singleton.

    Python objects that are mutated in place and can be aliased (manager
    instances, the list objects behind the pending queue, its snapshots and
    the plates) live in a store indexed by references; methods are
    computations in a state-and-exception monad over that store.  Python
    [float] is IEEE binary64, which is Rocq's primitive [float]. *)

From Stdlib Require Import ZArith String Floats.
From stdpp Require Import base option list gmap strings.

(** ** Exceptions and the monad of method bodies *)

(** The exceptions the module raises or meets.  [InvalidReference] belongs
    to the model only: it is what reading a reference outside the store
    gives, which no Python program can do. *)
Inductive exn : Type :=
  | ValueError (msg : string)
  | IndexError (msg : string)
  | AttributeError (msg : string)
  | NameError (msg : string)
  | Exception (msg : string)
  | InvalidReference.

(** [str(e)] of an exception. *)
Definition exn_str (e : exn) : string :=
  match e with
  | ValueError msg | IndexError msg | AttributeError msg | NameError msg
  | Exception msg => msg
  | InvalidReference => "invalid reference"%string
  end.

Inductive Result (A : Type) : Type :=
  | Ok (a : A)
  | Raised (e : exn).
Arguments Ok {A} a.
Arguments Raised {A} e.

Definition loc : Type := positive.

(** ** Data classes *)

Record KitchenObjectSO : Type := {
  kitchen_object_name : string;
  object_id : Z
}.

Record RecipeSO : Type := {
  recipe_name : string;
  kitchen_object_so_list : list KitchenObjectSO
}.

Record RecipeListSO : Type := {
  recipe_so_list : list RecipeSO
}.

(** A plate holds a reference to its private list object. *)
Record PlateKitchenObject : Type := {
  _kitchen_object_so_list : loc
}.

(** ** Event handlers and what an observer sees *)

(** A handler is a callable, known by its identity; called, it either
    returns or raises [Exception(msg)].  Python compares callables for
    [in] by identity, here by equality of the record. *)
Record Handler : Type := {
  handler_id : nat;
  handler_fault : option string
}.

#[global] Instance Handler_eq_dec : EqDecision Handler.
Proof. solve_decision. Defined.

Record Event : Type := {
  _handlers : list Handler
}.

(** The four event attributes of a manager. *)
Inductive EventName : Type :=
  | RecipeSpawned
  | RecipeCompleted
  | RecipeSuccess
  | RecipeFailed.

Inductive LogLevel : Type := ERROR | WARNING | INFO.

(** What the outside world observes, in order: an event being fired
    ([Event.invoke] entered), a handler being called with its sender, and a
    record handed to [logging]. *)
Inductive Obs : Type :=
  | Fired (ev : EventName) (sender : loc)
  | Called (h : Handler) (sender : loc)
  | Logged (level : LogLevel) (msg : string).

#[global] Instance EventName_eq_dec : EqDecision EventName.
Proof. solve_decision. Defined.
#[global] Instance LogLevel_eq_dec : EqDecision LogLevel.
Proof. solve_decision. Defined.
#[global] Instance Obs_eq_dec : EqDecision Obs.
Proof. solve_decision. Defined.

(** ** The manager object and the store *)

(** An object of the class; [_is_game_playing] is [None] while the object
    has no such attribute. *)
Record KitchenGameManager : Type := {
  _is_game_playing : option bool;
  on_recipe_spawned : Event;
  on_recipe_completed : Event;
  on_recipe_success : Event;
  on_recipe_failed : Event;
  _recipe_list_so : RecipeListSO;
  _waiting_recipe_so_list : loc;
  _spawn_recipe_timer : float;
  _successful_recipes_amount : Z;
  _last_update_time : option float
}.

Definition SPAWN_RECIPE_TIMER_MAX : float := 4%float.
Definition WAITING_RECIPES_MAX : nat := 4.

(** The store: the objects, the class attribute [_instance] and what has
    been observed. *)
Record World : Type := {
  managers : gmap loc KitchenGameManager;
  recipe_lists : gmap loc (list RecipeSO);
  kitchen_object_lists : gmap loc (list KitchenObjectSO);
  KitchenGameManager_instance : option loc;
  trace : list Obs
}.

Definition set_managers (f : gmap loc KitchenGameManager → gmap loc KitchenGameManager)
    (w : World) : World :=
  {| managers := f (managers w);
     recipe_lists := recipe_lists w;
     kitchen_object_lists := kitchen_object_lists w;
     KitchenGameManager_instance := KitchenGameManager_instance w;
     trace := trace w |}.

Definition set_recipe_lists (f : gmap loc (list RecipeSO) → gmap loc (list RecipeSO))
    (w : World) : World :=
  {| managers := managers w;
     recipe_lists := f (recipe_lists w);
     kitchen_object_lists := kitchen_object_lists w;
     KitchenGameManager_instance := KitchenGameManager_instance w;
     trace := trace w |}.

Definition set_kitchen_object_lists
    (f : gmap loc (list KitchenObjectSO) → gmap loc (list KitchenObjectSO))
    (w : World) : World :=
  {| managers := managers w;
     recipe_lists := recipe_lists w;
     kitchen_object_lists := f (kitchen_object_lists w);
     KitchenGameManager_instance := KitchenGameManager_instance w;
     trace := trace w |}.

Definition set_KitchenGameManager_instance (i : option loc) (w : World) : World :=
  {| managers := managers w;
     recipe_lists := recipe_lists w;
     kitchen_object_lists := kitchen_object_lists w;
     KitchenGameManager_instance := i;
     trace := trace w |}.

Definition set_trace (f : list Obs → list Obs) (w : World) : World :=
  {| managers := managers w;
     recipe_lists := recipe_lists w;
     kitchen_object_lists := kitchen_object_lists w;
     KitchenGameManager_instance := KitchenGameManager_instance w;
     trace := f (trace w) |}.

(** Attribute assignments on a manager. *)
Definition set_spawn_recipe_timer (t : float) (m : KitchenGameManager) : KitchenGameManager :=
  {| _is_game_playing := _is_game_playing m;
     on_recipe_spawned := on_recipe_spawned m;
     on_recipe_completed := on_recipe_completed m;
     on_recipe_success := on_recipe_success m;
     on_recipe_failed := on_recipe_failed m;
     _recipe_list_so := _recipe_list_so m;
     _waiting_recipe_so_list := _waiting_recipe_so_list m;
     _spawn_recipe_timer := t;
     _successful_recipes_amount := _successful_recipes_amount m;
     _last_update_time := _last_update_time m |}.

Definition set_successful_recipes_amount (n : Z) (m : KitchenGameManager) : KitchenGameManager :=
  {| _is_game_playing := _is_game_playing m;
     on_recipe_spawned := on_recipe_spawned m;
     on_recipe_completed := on_recipe_completed m;
     on_recipe_success := on_recipe_success m;
     on_recipe_failed := on_recipe_failed m;
     _recipe_list_so := _recipe_list_so m;
     _waiting_recipe_so_list := _waiting_recipe_so_list m;
     _spawn_recipe_timer := _spawn_recipe_timer m;
     _successful_recipes_amount := n;
     _last_update_time := _last_update_time m |}.

Definition set_last_update_time (t : option float) (m : KitchenGameManager) : KitchenGameManager :=
  {| _is_game_playing := _is_game_playing m;
     on_recipe_spawned := on_recipe_spawned m;
     on_recipe_completed := on_recipe_completed m;
     on_recipe_success := on_recipe_success m;
     on_recipe_failed := on_recipe_failed m;
     _recipe_list_so := _recipe_list_so m;
     _waiting_recipe_so_list := _waiting_recipe_so_list m;
     _spawn_recipe_timer := _spawn_recipe_timer m;
     _successful_recipes_amount := _successful_recipes_amount m;
     _last_update_time := t |}.

Definition set_is_game_playing (b : option bool) (m : KitchenGameManager) : KitchenGameManager :=
  {| _is_game_playing := b;
     on_recipe_spawned := on_recipe_spawned m;
     on_recipe_completed := on_recipe_completed m;
     on_recipe_success := on_recipe_success m;
     on_recipe_failed := on_recipe_failed m;
     _recipe_list_so := _recipe_list_so m;
     _waiting_recipe_so_list := _waiting_recipe_so_list m;
     _spawn_recipe_timer := _spawn_recipe_timer m;
     _successful_recipes_amount := _successful_recipes_amount m;
     _last_update_time := _last_update_time m |}.

(** The state-and-exception monad: an exception keeps the store as it was
    when it was raised, so assignments made before it stay made. *)
Definition M (A : Type) : Type := World → Result A * World.

Definition ret {A} (a : A) : M A := λ w, (Ok a, w).

Definition bind {A B} (c : M A) (k : A → M B) : M B :=
  λ w, match c w with
       | (Ok a, w') => k a w'
       | (Raised e, w') => (Raised e, w')
       end.

Definition raise {A} (e : exn) : M A := λ w, (Raised e, w).

(** [try: c except Exception as e: h e]. *)
Definition try_except {A} (c : M A) (h : exn → M A) : M A :=
  λ w, match c w with
       | (Ok a, w') => (Ok a, w')
       | (Raised e, w') => h e w'
       end.

Definition lift_result {A} (r : Result A) : M A := λ w, (r, w).

Declare Scope py_scope.
Delimit Scope py_scope with py.
Notation "x '<-' c1 ';;;' c2" := (bind c1 (λ x, c2))
  (at level 100, c1 at next level, right associativity) : py_scope.
Notation "c1 ';;;' c2" := (bind c1 (λ _, c2))
  (at level 100, right associativity) : py_scope.
Local Open Scope py_scope.

Definition emit (o : Obs) : M unit :=
  λ w, (Ok tt, set_trace (λ tr, tr ++ [o]) w).

Definition logging (level : LogLevel) (msg : string) : M unit :=
  emit (Logged level msg).

(** [for x in xs: body x] *)
Fixpoint for_each {A} (xs : list A) (body : A → M unit) : M unit :=
  match xs with
  | [] => ret tt
  | x :: xs' => body x ;;; for_each xs' body
  end.

(** Store access. *)
Definition get_manager (self : loc) : M KitchenGameManager :=
  λ w, match managers w !! self with
       | Some m => (Ok m, w)
       | None => (Raised InvalidReference, w)
       end.

Definition modify_manager (self : loc) (f : KitchenGameManager → KitchenGameManager) : M unit :=
  λ w, match managers w !! self with
       | Some m => (Ok tt, set_managers (λ ms, <[self := f m]> ms) w)
       | None => (Raised InvalidReference, w)
       end.

Definition read_recipe_list (l : loc) : M (list RecipeSO) :=
  λ w, match recipe_lists w !! l with
       | Some q => (Ok q, w)
       | None => (Raised InvalidReference, w)
       end.

Definition write_recipe_list (l : loc) (q : list RecipeSO) : M unit :=
  λ w, (Ok tt, set_recipe_lists (λ h, <[l := q]> h) w).

Definition new_recipe_list (q : list RecipeSO) : M loc :=
  λ w, let l := fresh (dom (recipe_lists w)) in
       (Ok l, set_recipe_lists (λ h, <[l := q]> h) w).

Definition read_kitchen_object_list (l : loc) : M (list KitchenObjectSO) :=
  λ w, match kitchen_object_lists w !! l with
       | Some q => (Ok q, w)
       | None => (Raised InvalidReference, w)
       end.

Definition new_kitchen_object_list (q : list KitchenObjectSO) : M loc :=
  λ w, let l := fresh (dom (kitchen_object_lists w)) in
       (Ok l, set_kitchen_object_lists (λ h, <[l := q]> h) w).

(** ** class Event *)

Module Event.

Definition __init__ : Event := {| _handlers := [] |}.

Definition add_handler (handler : Handler) (self : Event) : Event :=
  if bool_decide (handler ∈ _handlers self) then self
  else {| _handlers := _handlers self ++ [handler] |}.

(** [list.remove]: the first occurrence goes. *)
Fixpoint list_remove (x : Handler) (l : list Handler) : list Handler :=
  match l with
  | [] => []
  | y :: l' => if bool_decide (y = x) then l' else y :: list_remove x l'
  end.

Definition remove_handler (handler : Handler) (self : Event) : Event :=
  if bool_decide (handler ∈ _handlers self)
  then {| _handlers := list_remove handler (_handlers self) |}
  else self.

(** The call [handler(sender, args or EventArgs())]. *)
Definition call (handler : Handler) (sender : loc) : M unit :=
  emit (Called handler sender) ;;;
  match handler_fault handler with
  | None => ret tt
  | Some msg => raise (Exception msg)
  end.

(** [invoke]; [ev] says which attribute of the manager [self] is. *)
Definition invoke (ev : EventName) (self : Event) (sender : loc) : M unit :=
  emit (Fired ev sender) ;;;
  for_each (_handlers self) (λ handler,
    try_except (call handler sender)
      (λ e, logging ERROR ("Event handler error: " +:+ exn_str e))).

End Event.

(** ** class PlateKitchenObject *)

Module PlateKitchenObject.

Definition __init__ : M PlateKitchenObject :=
  l <- new_kitchen_object_list [] ;;;
  ret {| _kitchen_object_so_list := l |}.

Definition add_kitchen_object (self : PlateKitchenObject)
    (kitchen_object : KitchenObjectSO) : M unit :=
  q <- read_kitchen_object_list (_kitchen_object_so_list self) ;;;
  λ w, (Ok tt,
        set_kitchen_object_lists
          (λ h, <[_kitchen_object_so_list self := q ++ [kitchen_object]]> h) w).

(** [return self._kitchen_object_so_list.copy()]: a new list object. *)
Definition get_kitchen_object_so_list (self : PlateKitchenObject) : M loc :=
  q <- read_kitchen_object_list (_kitchen_object_so_list self) ;;;
  new_kitchen_object_list q.

End PlateKitchenObject.

(** ** [collections.Counter] over object identifiers *)

(** [Counter(iterable)]: for each element, [self[elem] = self.get(elem, 0) + 1]. *)
Definition count_step (c : gmap Z nat) (x : Z) : gmap Z nat :=
  <[x := S (default 0 (c !! x))]> c.

Definition Counter (xs : list Z) : gmap Z nat :=
  foldl count_step ∅ xs.

(** [random.choice(seq)] when the generator draws [k]: an element of a
    non-empty sequence, [IndexError] on an empty one. *)
Definition random_choice (k : nat) (seq : list RecipeSO) : Result RecipeSO :=
  match seq !! (k mod length seq) with
  | Some r => Ok r
  | None => Raised (IndexError "Cannot choose from an empty sequence")
  end.

(** ** class KitchenGameManager

    The [__init__] of lines 81-82 and the [get_instance] of lines 84-89
    are rebound, before the class object exists, by those of lines 115 and
    132, which are the ones below: no method ever sets [_is_game_playing]
    but [start_game] and [stop_game].

    The two injected callables are supplied by the caller of the model:
    [now] is what the call [self._timer()] returns and [random] is what
    the call [self._random(...)] does. *)

Module KitchenGameManager.

(** [return self._is_game_playing]: [AttributeError] on an object that has
    no such attribute. *)
Definition is_game_playing (self : loc) : M bool :=
  m <- get_manager self ;;;
  match _is_game_playing m with
  | Some playing => ret playing
  | None =>
      raise (AttributeError
               "'KitchenGameManager' object has no attribute '_is_game_playing'")
  end.

Definition start_game (self : loc) : M unit :=
  modify_manager self (set_is_game_playing (Some true)).

Definition stop_game (self : loc) : M unit :=
  modify_manager self (set_is_game_playing (Some false)).

Definition __init__ (recipe_list_so : RecipeListSO) : M loc :=
  waiting <- new_recipe_list [] ;;;
  λ w, let self := fresh (dom (managers w)) in
       (Ok self,
        set_managers (λ ms, <[self :=
          {| _is_game_playing := None;
             on_recipe_spawned := Event.__init__;
             on_recipe_completed := Event.__init__;
             on_recipe_success := Event.__init__;
             on_recipe_failed := Event.__init__;
             _recipe_list_so := recipe_list_so;
             _waiting_recipe_so_list := waiting;
             _spawn_recipe_timer := SPAWN_RECIPE_TIMER_MAX;
             _successful_recipes_amount := 0;
             _last_update_time := None |}]> ms) w).

Definition get_instance (recipe_list_so : option RecipeListSO) : M loc :=
  cls_instance <- (λ w, (Ok (KitchenGameManager_instance w), w)) ;;;
  match cls_instance with
  | None =>
      match recipe_list_so with
      | None => raise (ValueError "recipe_list_so is required for initial creation")
      | Some recipe_list_so =>
          self <- __init__ recipe_list_so ;;;
          (λ w, (Ok tt, set_KitchenGameManager_instance (Some self) w)) ;;;
          ret self
      end
  | Some self => ret self
  end.

Definition reset_instance : M unit :=
  λ w, (Ok tt, set_KitchenGameManager_instance None w).

(** At line 162 [KitchenGameManager.get_instance()] is the getter above,
    called with no catalog. *)
Definition update (self : loc) (now : float)
    (random : list RecipeSO → Result RecipeSO) : M unit :=
  m <- get_manager self ;;;
  let last_update_time :=
    match _last_update_time m with None => now | Some t => t end in
  let delta := (now - last_update_time)%float in
  modify_manager self (set_last_update_time (Some now)) ;;;
  modify_manager self
    (λ m, set_spawn_recipe_timer (_spawn_recipe_timer m - delta)%float m) ;;;
  m <- get_manager self ;;;
  if (_spawn_recipe_timer m <=? 0)%float then
    modify_manager self (set_spawn_recipe_timer SPAWN_RECIPE_TIMER_MAX) ;;;
    kitchen_game_manager <- get_instance None ;;;
    playing <- is_game_playing kitchen_game_manager ;;;
    if (playing : bool) then
      waiting <- read_recipe_list (_waiting_recipe_so_list m) ;;;
      if Nat.ltb (length waiting) WAITING_RECIPES_MAX then
        waiting_recipe_so <- lift_result (random (recipe_so_list (_recipe_list_so m))) ;;;
        write_recipe_list (_waiting_recipe_so_list m) (waiting ++ [waiting_recipe_so]) ;;;
        Event.invoke RecipeSpawned (on_recipe_spawned m) self
      else ret tt
    else ret tt
  else ret tt.

Definition _ingredients_match
    (plate_ingredients recipe_ingredients : list KitchenObjectSO) : bool :=
  let plate_counter := Counter (object_id <$> plate_ingredients) in
  let recipe_counter := Counter (object_id <$> recipe_ingredients) in
  bool_decide (plate_counter = recipe_counter).

(** The [for i, waiting_recipe in enumerate(...)] loop from index [i] on,
    [rest] being what is left to visit; [true] when it returned from
    inside the loop. *)
Fixpoint deliver_loop (self : loc) (plate_ingredients : list KitchenObjectSO)
    (i : nat) (rest : list RecipeSO) : M bool :=
  match rest with
  | [] => ret false
  | waiting_recipe :: rest' =>
      if _ingredients_match plate_ingredients (kitchen_object_so_list waiting_recipe)
      then
        modify_manager self
          (λ m, set_successful_recipes_amount (_successful_recipes_amount m + 1) m) ;;;
        m <- get_manager self ;;;
        waiting <- read_recipe_list (_waiting_recipe_so_list m) ;;;
        write_recipe_list (_waiting_recipe_so_list m) (delete i waiting) ;;;
        logging INFO ("Recipe delivered successfully: " +:+ recipe_name waiting_recipe) ;;;
        Event.invoke RecipeCompleted (on_recipe_completed m) self ;;;
        Event.invoke RecipeSuccess (on_recipe_success m) self ;;;
        ret true
      else deliver_loop self plate_ingredients (S i) rest'
  end.

Definition deliver_recipe (self : loc)
    (plate_kitchen_object : option PlateKitchenObject) : M unit :=
  m <- get_manager self ;;;
  match plate_kitchen_object with
  | None =>
      logging WARNING "Attempted to deliver a None plate." ;;;
      Event.invoke RecipeFailed (on_recipe_failed m) self
  | Some plate_kitchen_object =>
      plate_ingredients_ref <-
        PlateKitchenObject.get_kitchen_object_so_list plate_kitchen_object ;;;
      plate_ingredients <- read_kitchen_object_list plate_ingredients_ref ;;;
      match plate_ingredients with
      | [] =>
          logging WARNING "Attempted to deliver an empty plate." ;;;
          Event.invoke RecipeFailed (on_recipe_failed m) self
      | _ :: _ =>
          waiting <- read_recipe_list (_waiting_recipe_so_list m) ;;;
          match waiting with
          | [] =>
              logging WARNING "No waiting recipes to deliver." ;;;
              Event.invoke RecipeFailed (on_recipe_failed m) self
          | _ :: _ =>
              returned <- deliver_loop self plate_ingredients 0 waiting ;;;
              if (returned : bool) then ret tt
              else
                logging INFO "No matching recipe found for delivery." ;;;
                Event.invoke RecipeFailed (on_recipe_failed m) self
          end
      end
  end.

(** [return list(self._waiting_recipe_so_list)]: a new list object. *)
Definition get_waiting_recipe_so_list (self : loc) : M loc :=
  m <- get_manager self ;;;
  waiting <- read_recipe_list (_waiting_recipe_so_list m) ;;;
  new_recipe_list waiting.

Definition get_successful_recipes_amount (self : loc) : M Z :=
  m <- get_manager self ;;;
  ret (_successful_recipes_amount m).

End KitchenGameManager.

(** ** Subscriptions, as client code makes them *)

Definition event_of (ev : EventName) (m : KitchenGameManager) : Event :=
  match ev with
  | RecipeSpawned => on_recipe_spawned m
  | RecipeCompleted => on_recipe_completed m
  | RecipeSuccess => on_recipe_success m
  | RecipeFailed => on_recipe_failed m
  end.

Definition set_event (ev : EventName) (e : Event) (m : KitchenGameManager) : KitchenGameManager :=
  {| _is_game_playing := _is_game_playing m;
     on_recipe_spawned := if bool_decide (ev = RecipeSpawned) then e else on_recipe_spawned m;
     on_recipe_completed := if bool_decide (ev = RecipeCompleted) then e else on_recipe_completed m;
     on_recipe_success := if bool_decide (ev = RecipeSuccess) then e else on_recipe_success m;
     on_recipe_failed := if bool_decide (ev = RecipeFailed) then e else on_recipe_failed m;
     _recipe_list_so := _recipe_list_so m;
     _waiting_recipe_so_list := _waiting_recipe_so_list m;
     _spawn_recipe_timer := _spawn_recipe_timer m;
     _successful_recipes_amount := _successful_recipes_amount m;
     _last_update_time := _last_update_time m |}.

(** [manager.<ev>.add_handler(h)] and [manager.<ev>.remove_handler(h)] *)
Definition subscribe (self : loc) (ev : EventName) (h : Handler) : M unit :=
  modify_manager self (λ m, set_event ev (Event.add_handler h (event_of ev m)) m).

Definition unsubscribe (self : loc) (ev : EventName) (h : Handler) : M unit :=
  modify_manager self (λ m, set_event ev (Event.remove_handler h (event_of ev m)) m).

(** A sequence of subscription calls on one event object. *)
Inductive Subscription : Type :=
  | AddHandler (h : Handler)
  | RemoveHandler (h : Handler).

Definition subscription_step (e : Event) (s : Subscription) : Event :=
  match s with
  | AddHandler h => Event.add_handler h e
  | RemoveHandler h => Event.remove_handler h e
  end.

Definition subscriptions (ss : list Subscription) : Event :=
  foldl subscription_step Event.__init__ ss.

(** ** What firing an event shows *)

(** The observations one handler contributes: its call and, when it
    raises, the error record of the [except] branch. *)
Definition handler_obs (sender : loc) (h : Handler) : list Obs :=
  Called h sender ::
  match handler_fault h with
  | None => []
  | Some msg => [Logged ERROR ("Event handler error: " +:+ msg)]
  end.

Definition fired (ev : EventName) (e : Event) (sender : loc) : list Obs :=
  Fired ev sender :: flat_map (handler_obs sender) (_handlers e).

(** The handlers called in a stretch of the trace, in order. *)
Definition handlers_called (tr : list Obs) : list Handler :=
  omap (λ o, match o with Called h _ => Some h | _ => None end) tr.

Definition add_trace (obs : list Obs) (w : World) : World :=
  set_trace (λ tr, tr ++ obs) w.


(** ** What [update] and [deliver_recipe] are expected to leave behind *)

(** The gate as [update] reads it at lines 162-163: the
    [_is_game_playing] attribute of the registered singleton.  The reading
    raises [ValueError] when no singleton is registered and
    [AttributeError] when the singleton has no such attribute yet. *)
Definition gate_reading (w : World) : Result bool :=
  match KitchenGameManager_instance w with
  | None => Raised (ValueError "recipe_list_so is required for initial creation")
  | Some kitchen_game_manager =>
      match managers w !! kitchen_game_manager with
      | None => Raised InvalidReference
      | Some g =>
          match _is_game_playing g with
          | Some playing => Ok playing
          | None =>
              Raised (AttributeError
                        "'KitchenGameManager' object has no attribute '_is_game_playing'")
          end
      end
  end.

Definition gate_active (w : World) : bool :=
  match gate_reading w with
  | Ok true => true
  | _ => false
  end.

(** The timer after [update] has subtracted the elapsed time. *)
Definition timer_after (m : KitchenGameManager) (now : float) : float :=
  let last_update_time :=
    match _last_update_time m with None => now | Some t => t end in
  (_spawn_recipe_timer m - (now - last_update_time))%float.

(** The pending order a plate is matched with: the first one, in queue
    order, whose counter equals the plate's. *)
Definition first_match (plate_ingredients : list KitchenObjectSO)
    (waiting : list RecipeSO) : option (nat * RecipeSO) :=
  list_find (λ r, KitchenGameManager._ingredients_match plate_ingredients
                    (kitchen_object_so_list r) = true) waiting.

(** The store after an accepted delivery of the order at index [i]. *)
Definition delivered (self : loc) (m : KitchenGameManager) (waiting : list RecipeSO)
    (i : nat) (r : RecipeSO) (w : World) : World :=
  add_trace
    (Logged INFO ("Recipe delivered successfully: " +:+ recipe_name r) ::
     fired RecipeCompleted (on_recipe_completed m) self ++
     fired RecipeSuccess (on_recipe_success m) self)
    (set_recipe_lists (λ h, <[_waiting_recipe_so_list m := delete i waiting]> h)
       (set_managers
          (λ ms, <[self := set_successful_recipes_amount
                            (_successful_recipes_amount m + 1) m]> ms) w)).

(** The store after a rejected delivery: a log record and the failure
    event. *)
Definition rejected (self : loc) (m : KitchenGameManager) (level : LogLevel)
    (msg : string) (w : World) : World :=
  add_trace (Logged level msg :: fired RecipeFailed (on_recipe_failed m) self) w.

(** Two ingredient lists are the same multiset of identifiers. *)
Definition same_ingredients (xs ys : list KitchenObjectSO) : Prop :=
  object_id <$> xs ≡ₚ object_id <$> ys.

(** ** Client code *)

(** Any in-place mutation of a list object ([append], [pop], [clear], item
    assignment, ...): its contents become [f] of what they were. *)
Definition mutate_recipe_list (l : loc) (f : list RecipeSO → list RecipeSO) : M unit :=
  q <- read_recipe_list l ;;;
  write_recipe_list l (f q).

(** The calls client code makes with a manager [self] in hand: on the
    manager, on its events, on the class, on plates and on the snapshots
    the getter hands out.  [start_game] and [stop_game] are called on any
    manager [target], [self] or another (the registered singleton, say). *)
Inductive Call : Type :=
  | CallUpdate (now : float) (random : list RecipeSO → Result RecipeSO)
  | CallDeliver (plate_kitchen_object : option PlateKitchenObject)
  | CallStartGame (target : loc)
  | CallStopGame (target : loc)
  | CallGetInstance (recipe_list_so : option RecipeListSO)
  | CallResetInstance
  | CallSubscribe (ev : EventName) (h : Handler)
  | CallUnsubscribe (ev : EventName) (h : Handler)
  | CallNewPlate
  | CallAddKitchenObject (plate : PlateKitchenObject) (kitchen_object : KitchenObjectSO)
  | CallMutateSnapshot (f : list RecipeSO → list RecipeSO).

Definition run_call (self : loc) (c : Call) : M unit :=
  match c with
  | CallUpdate now random => KitchenGameManager.update self now random
  | CallDeliver plate_kitchen_object =>
      KitchenGameManager.deliver_recipe self plate_kitchen_object
  | CallStartGame target => KitchenGameManager.start_game target
  | CallStopGame target => KitchenGameManager.stop_game target
  | CallGetInstance recipe_list_so =>
      _ <- KitchenGameManager.get_instance recipe_list_so ;;; ret tt
  | CallResetInstance => KitchenGameManager.reset_instance
  | CallSubscribe ev h => subscribe self ev h
  | CallUnsubscribe ev h => unsubscribe self ev h
  | CallNewPlate => _ <- PlateKitchenObject.__init__ ;;; ret tt
  | CallAddKitchenObject plate kitchen_object =>
      PlateKitchenObject.add_kitchen_object plate kitchen_object
  | CallMutateSnapshot f =>
      snapshot <- KitchenGameManager.get_waiting_recipe_so_list self ;;;
      mutate_recipe_list snapshot f
  end.

(** A driver goes on after a call that raised: the store is as the call
    left it. *)
Fixpoint run_calls (self : loc) (cs : list Call) (w : World) : World :=
  match cs with
  | [] => w
  | c :: cs' => run_calls self cs' (snd (run_call self c w))
  end.

Definition is_update (c : Call) : bool :=
  match c with CallUpdate _ _ => true | _ => false end.

Definition is_reset (c : Call) : bool :=
  match c with CallResetInstance => true | _ => false end.

(** Whether the call is [start_game] or [stop_game] on the manager [g]. *)
Definition switches (g : loc) (c : Call) : bool :=
  match c with
  | CallStartGame target | CallStopGame target => bool_decide (target = g)
  | _ => false
  end.

(** How one call may change the queue: not at all, by one order more
    while below capacity, or by one order less. *)
Inductive queue_step (q : list RecipeSO) : list RecipeSO → Prop :=
  | queue_same : queue_step q q
  | queue_spawn r : length q < WAITING_RECIPES_MAX → queue_step q (q ++ [r])
  | queue_deliver i : queue_step q (delete i q).

(** The pending queue of the manager at [self], read through the store. *)
Definition queue_of (self : loc) (w : World) : option (list RecipeSO) :=
  m ← managers w !! self; recipe_lists w !! _waiting_recipe_so_list m.

(** The manager object [__init__] sets up, its queue being the list
    object at [waiting]. *)
Definition new_manager (recipe_list_so : RecipeListSO) (waiting : loc) : KitchenGameManager :=
  {| _is_game_playing := None;
     on_recipe_spawned := Event.__init__;
     on_recipe_completed := Event.__init__;
     on_recipe_success := Event.__init__;
     on_recipe_failed := Event.__init__;
     _recipe_list_so := recipe_list_so;
     _waiting_recipe_so_list := waiting;
     _spawn_recipe_timer := SPAWN_RECIPE_TIMER_MAX;
     _successful_recipes_amount := 0;
     _last_update_time := None |}.

(** [self] is the manager a construction from [recipe_list_so] has just
    made in the store [w0], leaving [w1]: by a call of the class, or by
    the [get_instance] that registers the singleton. *)
Definition constructed (recipe_list_so : RecipeListSO) (w0 : World) (self : loc)
    (w1 : World) : Prop :=
  KitchenGameManager.__init__ recipe_list_so w0 = (Ok self, w1) ∨
  (KitchenGameManager_instance w0 = None ∧
   KitchenGameManager.get_instance (Some recipe_list_so) w0 = (Ok self, w1)).

(** ** Sample data: the usage example of the module *)

Definition tomato : KitchenObjectSO := {| kitchen_object_name := "Tomato"; object_id := 1 |}.
Definition lettuce : KitchenObjectSO := {| kitchen_object_name := "Lettuce"; object_id := 2 |}.
Definition bread : KitchenObjectSO := {| kitchen_object_name := "Bread"; object_id := 3 |}.

Definition sandwich_recipe : RecipeSO :=
  {| recipe_name := "Sandwich"; kitchen_object_so_list := [bread; lettuce; tomato] |}.
Definition salad_recipe : RecipeSO :=
  {| recipe_name := "Salad"; kitchen_object_so_list := [lettuce; tomato] |}.

Definition recipe_list : RecipeListSO :=
  {| recipe_so_list := [sandwich_recipe; salad_recipe] |}.

Definition empty_world : World :=
  {| managers := ∅;
     recipe_lists := ∅;
     kitchen_object_lists := ∅;
     KitchenGameManager_instance := None;
     trace := [] |}.

(** The handlers of the script at the end of the module only print, so
    they return. *)
Definition on_recipe_spawned_handler : Handler := {| handler_id := 0; handler_fault := None |}.
Definition on_recipe_success_handler : Handler := {| handler_id := 1; handler_fault := None |}.
Definition on_recipe_failed_handler : Handler := {| handler_id := 2; handler_fault := None |}.

(** The script at the end of the module, after its sample data.  Line 236,
    [KitchenGameManager.get_instance()], is the getter called with no
    catalog; the name [DeliveryManager] of line 239 is bound nowhere in the
    module, so nothing after it is reached. *)
Definition usage_example : M unit :=
  game_manager <- KitchenGameManager.get_instance None ;;;
  KitchenGameManager.start_game game_manager ;;;
  raise (NameError "name 'DeliveryManager' is not defined").

(** What a client of the class as it stands does to get a running
    manager: register the singleton with the catalog, start the game on
    it, call [update] once for the baseline at [start] and then every four
    seconds, the random source drawing as [draws] says, and fill a plate
    with [plate_ingredients]. *)
Fixpoint spawn_each (self : loc) (now : float) (draws : list nat) : M unit :=
  match draws with
  | [] => ret tt
  | k :: draws' =>
      KitchenGameManager.update self (now + 4)%float (random_choice k) ;;;
      spawn_each self (now + 4)%float draws'
  end.

Definition sample_script (catalog : RecipeListSO) (start : float) (draws : list nat)
    (plate_ingredients : list KitchenObjectSO) : M loc :=
  self <- KitchenGameManager.get_instance (Some catalog) ;;;
  KitchenGameManager.start_game self ;;;
  KitchenGameManager.update self start (random_choice 0) ;;;
  spawn_each self start draws ;;;
  plate <- PlateKitchenObject.__init__ ;;;
  for_each plate_ingredients (PlateKitchenObject.add_kitchen_object plate) ;;;
  ret self.

(** The store such a script leaves, the observations made so far put
    aside: the registered singleton, made from [catalog], being played and
    last updated at time 100, whose queue holds [waiting]; one plate
    holding [plate_ingredients]. *)
Definition sample_manager (catalog : RecipeListSO) : KitchenGameManager :=
  set_is_game_playing (Some true)
    (set_last_update_time (Some 100%float) (new_manager catalog 1%positive)).

Definition sample_plate : PlateKitchenObject :=
  {| _kitchen_object_so_list := 1%positive |}.

Definition sample_world (catalog : RecipeListSO) (waiting : list RecipeSO)
    (plate_ingredients : list KitchenObjectSO) : World :=
  {| managers := {[1%positive := sample_manager catalog]};
     recipe_lists := {[1%positive := waiting]};
     kitchen_object_lists := {[1%positive := plate_ingredients]};
     KitchenGameManager_instance := Some 1%positive;
     trace := [] |}.

(** The store after the singleton has been registered with the usage
    example's catalog, and after the game has been started on it. *)
Definition registered_world : World :=
  snd (KitchenGameManager.get_instance (Some recipe_list) empty_world).

Definition started_world : World :=
  snd (KitchenGameManager.start_game 1%positive registered_world).

(** ** Bookkeeping over traces, subscriptions and call sequences *)

(** How often the event [ev] of the manager [sender] was fired in a
    stretch of the trace. *)
Definition fired_count (ev : EventName) (sender : loc) (tr : list Obs) : nat :=
  length (filter (λ o, o = Fired ev sender) tr).


(** The [_is_game_playing] attribute of the manager [g] after the calls
    [cs], being [flag] before them: the last [start_game] or [stop_game]
    on [g] decides. *)
Definition last_switch (g : loc) (cs : list Call) (flag : option bool) : option bool :=
  foldl (λ flag c, match c with
                   | CallStartGame target =>
                       if bool_decide (target = g) then Some true else flag
                   | CallStopGame target =>
                       if bool_decide (target = g) then Some false else flag
                   | _ => flag
                   end) flag cs.

(** The clock reading of the last [update] among the calls [cs]. *)
Definition last_clock (cs : list Call) (last : option float) : option float :=
  foldl (λ t c, match c with CallUpdate now _ => Some now | _ => t end) last cs.

(** A random source that, like [random.choice], only ever returns an
    element of the sequence it is given. *)
Definition choice_like (random : list RecipeSO → Result RecipeSO) : Prop :=
  ∀ seq r, random seq = Ok r → r ∈ seq.

Definition chooses_from_catalog (c : Call) : Prop :=
  match c with
  | CallUpdate _ random => choice_like random
  | _ => True
  end.

(** A kitchen object under another name. *)
Definition rename (f : string → string) (ko : KitchenObjectSO) : KitchenObjectSO :=
  {| kitchen_object_name := f (kitchen_object_name ko); object_id := object_id ko |}.

(** [plate = PlateKitchenObject()], one [plate.add_kitchen_object(ko)] for
    each [ko] of [kos] in turn, then [plate.get_kitchen_object_so_list()]. *)
Definition fill_plate (kos : list KitchenObjectSO) : M (PlateKitchenObject * loc) :=
  plate <- PlateKitchenObject.__init__ ;;;
  for_each kos (PlateKitchenObject.add_kitchen_object plate) ;;;
  copy <- PlateKitchenObject.get_kitchen_object_so_list plate ;;;
  ret (plate, copy).

(** An order of a recipe with no ingredients. *)
Definition no_ingredients (r : RecipeSO) : Prop := kitchen_object_so_list r = [].

(** A session on the registered singleton of the usage example: the game
    is started, two updates four seconds apart spawn the salad, a plate of
    tomato and lettuce is made and delivered twice, and a late update
    spawns the sandwich. *)
Definition sample_session : list Call :=
  [CallStartGame 1%positive;
   CallSubscribe RecipeSuccess on_recipe_success_handler;
   CallUpdate 0%float (random_choice 0);
   CallUpdate 4%float (random_choice 1);
   CallNewPlate;
   CallAddKitchenObject sample_plate tomato;
   CallAddKitchenObject sample_plate lettuce;
   CallDeliver (Some sample_plate);
   CallDeliver (Some sample_plate);
   CallUpdate 9%float (random_choice 0)].

(** The store after the singleton has been registered and a second
    manager constructed directly, both from the usage example's catalog. *)
Definition two_managers : World :=
  snd ((KitchenGameManager.get_instance (Some recipe_list) ;;;
        KitchenGameManager.__init__ recipe_list) empty_world).

(** * Properties *)

(** ** The store *)

Lemma add_trace_nil w : add_trace [] w = w.
Proof. destruct w; unfold add_trace, set_trace; simpl. by rewrite app_nil_r. Qed.

Lemma add_trace_add_trace a b w : add_trace b (add_trace a w) = add_trace (a ++ b) w.
Proof. unfold add_trace, set_trace; simpl. by rewrite app_assoc. Qed.

Lemma emit_run o w : emit o w = (Ok tt, add_trace [o] w).
Proof. reflexivity. Qed.

(** Run as it stands, the script stops at its first statement: no
    singleton is registered and no catalog is given. *)
Example usage_example_run :
  usage_example empty_world =
  (Raised (ValueError "recipe_list_so is required for initial creation"), empty_world).
Proof. reflexivity. Qed.

(** ** Events *)

Lemma handler_run h sender w :
  try_except (Event.call h sender)
    (λ e, logging ERROR ("Event handler error: " +:+ exn_str e)) w
  = (Ok tt, add_trace (handler_obs sender h) w).
Proof.
  unfold try_except, Event.call, bind, handler_obs.
  rewrite emit_run.
  destruct (handler_fault h) as [msg|]; simpl; [|done].
  unfold raise, logging. by rewrite emit_run, add_trace_add_trace.
Qed.

Lemma for_each_handlers_run hs sender w :
  for_each hs (λ handler,
    try_except (Event.call handler sender)
      (λ e, logging ERROR ("Event handler error: " +:+ exn_str e))) w
  = (Ok tt, add_trace (flat_map (handler_obs sender) hs) w).
Proof.
  revert w. induction hs as [|h hs IH]; intros w.
  - simpl. by rewrite add_trace_nil.
  - cbn [for_each flat_map]. unfold bind at 1.
    by rewrite handler_run, IH, add_trace_add_trace.
Qed.

Lemma invoke_run ev e sender w :
  Event.invoke ev e sender w = (Ok tt, add_trace (fired ev e sender) w).
Proof.
  unfold Event.invoke, bind. rewrite emit_run, for_each_handlers_run.
  by rewrite add_trace_add_trace.
Qed.

Lemma handlers_called_obs sender hs :
  handlers_called (flat_map (handler_obs sender) hs) = hs.
Proof.
  induction hs as [|h hs IH]; [done|].
  cbn [flat_map]. unfold handlers_called in *. rewrite omap_app, IH.
  unfold handler_obs. by destruct (handler_fault h).
Qed.

Lemma handlers_called_fired ev e sender :
  handlers_called (fired ev e sender) = _handlers e.
Proof. unfold fired. apply (handlers_called_obs sender). Qed.



Lemma add_handler_NoDup h e :
  NoDup (_handlers e) → NoDup (_handlers (Event.add_handler h e)).
Proof.
  intros Hnd. unfold Event.add_handler. case_bool_decide; simpl; [done|].
  apply NoDup_app. split_and!; [done| |apply NoDup_singleton].
  intros x Hx Hx'. apply list_elem_of_singleton in Hx'. by subst.
Qed.

Lemma list_remove_sublist h l : sublist (Event.list_remove h l) l.
Proof.
  induction l as [|y l IH]; simpl; [done|].
  case_bool_decide; [by apply sublist_cons | by apply sublist_skip].
Qed.

Lemma remove_handler_NoDup h e :
  NoDup (_handlers e) → NoDup (_handlers (Event.remove_handler h e)).
Proof.
  intros Hnd. unfold Event.remove_handler. case_bool_decide; simpl; [|done].
  by apply (sublist_NoDup _ _ Hnd), list_remove_sublist.
Qed.

Lemma subscriptions_snoc ss s :
  subscriptions (ss ++ [s]) = subscription_step (subscriptions ss) s.
Proof. unfold subscriptions. by rewrite foldl_app. Qed.

Lemma subscriptions_NoDup ss : NoDup (_handlers (subscriptions ss)).
Proof.
  induction ss as [|s ss IH] using rev_ind; [apply NoDup_nil_2|].
  rewrite subscriptions_snoc. destruct s; simpl.
  - by apply add_handler_NoDup.
  - by apply remove_handler_NoDup.
Qed.






(** ** Counters and ingredient matching *)

Section counter.

Lemma foldl_count_step_lookup (c : gmap Z nat) xs x :
  foldl count_step c xs !! x =
  match count_occ Z.eq_dec xs x with
  | 0 => c !! x
  | S n => Some (S n + default 0 (c !! x))
  end.
Proof.
  revert c. induction xs as [|y xs IH]; intros c; [done|].
  cbn [foldl count_occ]. rewrite IH. unfold count_step.
  destruct (Z.eq_dec y x) as [->|Hne].
  - rewrite lookup_insert_eq. simpl.
    destruct (count_occ Z.eq_dec xs x); f_equal; lia.
  - by rewrite lookup_insert_ne.
Qed.

Lemma Counter_lookup xs x :
  Counter xs !! x =
  match count_occ Z.eq_dec xs x with 0 => None | S n => Some (S n) end.
Proof.
  unfold Counter. rewrite foldl_count_step_lookup, lookup_empty. simpl.
  destruct (count_occ Z.eq_dec xs x); f_equal; lia.
Qed.

(** Two counters are equal exactly when the lists are equal as
    multisets. *)
Lemma Counter_eq_iff xs ys : Counter xs = Counter ys ↔ xs ≡ₚ ys.
Proof.
  rewrite (Permutation_count_occ Z.eq_dec). split.
  - intros Heq x. assert (Counter xs !! x = Counter ys !! x) as Hx by by rewrite Heq.
    rewrite !Counter_lookup in Hx.
    destruct (count_occ Z.eq_dec xs x), (count_occ Z.eq_dec ys x); congruence.
  - intros Hcount. apply map_eq. intros x.
    by rewrite !Counter_lookup, Hcount.
Qed.

Lemma ingredients_match_iff plate_ingredients recipe_ingredients :
  KitchenGameManager._ingredients_match plate_ingredients recipe_ingredients = true ↔
  object_id <$> plate_ingredients ≡ₚ object_id <$> recipe_ingredients.
Proof.
  unfold KitchenGameManager._ingredients_match. simpl.
  by rewrite bool_decide_eq_true, Counter_eq_iff.
Qed.

Lemma ingredients_match_perm plate_ingredients recipe1 recipe2 :
  recipe1 ≡ₚ recipe2 →
  KitchenGameManager._ingredients_match plate_ingredients recipe1 =
  KitchenGameManager._ingredients_match plate_ingredients recipe2.
Proof.
  intros Hperm. apply eq_true_iff_eq. rewrite !ingredients_match_iff.
  by rewrite Hperm.
Qed.

End counter.

(** C5, as stated, fails: no plate tells two recipes apart whose ingredient
    lists are permutations of each other. *)
Lemma ingredient_order_never_distinguishes :
  KitchenGameManager._ingredients_match [tomato; lettuce] [lettuce; tomato] = true ∧
  ¬ ∃ (plate_ingredients : list KitchenObjectSO) (recipe1 recipe2 : RecipeSO),
      kitchen_object_so_list recipe1 ≡ₚ kitchen_object_so_list recipe2 ∧
      KitchenGameManager._ingredients_match plate_ingredients
        (kitchen_object_so_list recipe1) = true ∧
      KitchenGameManager._ingredients_match plate_ingredients
        (kitchen_object_so_list recipe2) = false.
Proof.
  split; [by vm_compute|].
  intros (plate & r1 & r2 & Hperm & H1 & H2).
  rewrite (ingredients_match_perm plate _ _ Hperm) in H1. congruence.
Qed.

(** C5, amended.  For matching, the order of a recipe's ingredient
    sequence is irrelevant and only the number of times each identifier
    occurs counts: recipes whose ingredient lists are permutations of each
    other match exactly the same plates (and permuted plates match the
    same recipes), while a recipe asking twice for an ingredient does not
    match a plate holding it once. *)
Theorem ingredients_match_order_irrelevant
    (plate_ingredients plate_ingredients' : list KitchenObjectSO)
    (recipe1 recipe2 : RecipeSO) (ko : KitchenObjectSO) :
  kitchen_object_so_list recipe1 ≡ₚ kitchen_object_so_list recipe2 →
  plate_ingredients ≡ₚ plate_ingredients' →
  KitchenGameManager._ingredients_match plate_ingredients
    (kitchen_object_so_list recipe1) =
  KitchenGameManager._ingredients_match plate_ingredients'
    (kitchen_object_so_list recipe2) ∧
  KitchenGameManager._ingredients_match [ko] [ko; ko] = false ∧
  KitchenGameManager._ingredients_match [ko; ko] [ko; ko] = true.
Proof.
  intros Hrecipe Hplate. split_and!.
  - apply eq_true_iff_eq. rewrite !ingredients_match_iff.
    by rewrite Hrecipe, Hplate.
  - apply not_true_iff_false. rewrite ingredients_match_iff.
    intros Hperm. apply Permutation_length in Hperm. done.
  - by apply ingredients_match_iff.
Qed.

(** The salad, its ingredients in either order. *)
Lemma ingredients_match_order_irrelevant_example :
  KitchenGameManager._ingredients_match [tomato; lettuce]
    (kitchen_object_so_list salad_recipe) =
  KitchenGameManager._ingredients_match [lettuce; tomato] [tomato; lettuce] ∧
  KitchenGameManager._ingredients_match [tomato] [tomato; tomato] = false ∧
  KitchenGameManager._ingredients_match [tomato; tomato] [tomato; tomato] = true.
Proof.
  apply (ingredients_match_order_irrelevant [tomato; lettuce] [lettuce; tomato]
           salad_recipe
           {| recipe_name := "Salad"; kitchen_object_so_list := [tomato; lettuce] |}
           tomato); apply perm_swap.
Defined.

(** ** Running the methods *)

Lemma bind_ok {A B} (c : M A) (k : A → M B) w a w' :
  c w = (Ok a, w') → bind c k w = k a w'.
Proof. unfold bind. by intros ->. Qed.

Lemma bind_raised {A B} (c : M A) (k : A → M B) w e w' :
  c w = (Raised e, w') → bind c k w = (Raised e, w').
Proof. unfold bind. by intros ->. Qed.

Lemma get_manager_ok self w m :
  managers w !! self = Some m → get_manager self w = (Ok m, w).
Proof. unfold get_manager. by intros ->. Qed.

Lemma modify_manager_ok self f w m :
  managers w !! self = Some m →
  modify_manager self f w = (Ok tt, set_managers (λ ms, <[self := f m]> ms) w).
Proof. unfold modify_manager. by intros ->. Qed.

Lemma read_recipe_list_ok l w q :
  recipe_lists w !! l = Some q → read_recipe_list l w = (Ok q, w).
Proof. unfold read_recipe_list. by intros ->. Qed.

Lemma read_recipe_list_none l w :
  recipe_lists w !! l = None → read_recipe_list l w = (Raised InvalidReference, w).
Proof. unfold read_recipe_list. by intros ->. Qed.

Lemma get_manager_none self w :
  managers w !! self = None → get_manager self w = (Raised InvalidReference, w).
Proof. unfold get_manager. by intros ->. Qed.

Lemma modify_manager_none self f w :
  managers w !! self = None → modify_manager self f w = (Raised InvalidReference, w).
Proof. unfold modify_manager. by intros ->. Qed.

Ltac world_simpl :=
  cbn [managers recipe_lists kitchen_object_lists KitchenGameManager_instance trace
       set_managers set_recipe_lists set_kitchen_object_lists
       set_KitchenGameManager_instance set_trace add_trace].

(** ** Reading the gate *)

Lemma get_instance_registered again self w :
  KitchenGameManager_instance w = Some self →
  KitchenGameManager.get_instance again w = (Ok self, w).
Proof. intros Hinst. unfold KitchenGameManager.get_instance, bind. by rewrite Hinst. Qed.

Lemma get_instance_missing w :
  KitchenGameManager_instance w = None →
  KitchenGameManager.get_instance None w =
  (Raised (ValueError "recipe_list_so is required for initial creation"), w).
Proof. intros Hinst. unfold KitchenGameManager.get_instance, bind. by rewrite Hinst. Qed.

Lemma is_game_playing_run self w g :
  managers w !! self = Some g →
  KitchenGameManager.is_game_playing self w =
  (match _is_game_playing g with
   | Some playing => Ok playing
   | None =>
       Raised (AttributeError
                 "'KitchenGameManager' object has no attribute '_is_game_playing'")
   end, w).
Proof.
  intros Hg. unfold KitchenGameManager.is_game_playing.
  rewrite (bind_ok _ _ _ _ _ (get_manager_ok _ _ _ Hg)).
  by destruct (_is_game_playing g).
Qed.

(** Lines 162-163 of [update] read the gate, and nothing else. *)
Lemma gate_read_run {A} (k : bool → M A) w :
  (kitchen_game_manager <- KitchenGameManager.get_instance None ;;;
   playing <- KitchenGameManager.is_game_playing kitchen_game_manager ;;;
   k playing) w =
  match gate_reading w with
  | Ok playing => k playing w
  | Raised e => (Raised e, w)
  end.
Proof.
  unfold gate_reading.
  destruct (KitchenGameManager_instance w) as [g|] eqn:Hinst.
  2:{ by rewrite (bind_raised _ _ _ _ _ (get_instance_missing _ Hinst)). }
  rewrite (bind_ok _ _ _ _ _ (get_instance_registered _ _ _ Hinst)).
  destruct (managers w !! g) as [mg|] eqn:Hg.
  2:{ unfold KitchenGameManager.is_game_playing.
      erewrite bind_raised; [done|].
      by rewrite (bind_raised _ _ _ _ _ (get_manager_none _ _ Hg)). }
  unfold bind at 1. rewrite (is_game_playing_run _ _ _ Hg).
  by destruct (_is_game_playing mg).
Qed.

Lemma gate_active_reading w : gate_active w = true ↔ gate_reading w = Ok true.
Proof. unfold gate_active. by destruct (gate_reading w) as [[|]|e]. Qed.


(** An assignment to an attribute of [self] other than [_is_game_playing]
    leaves the reading of the gate as it was. *)
Lemma gate_reading_frame self m m' w w' :
  managers w !! self = Some m →
  managers w' = <[self := m']> (managers w) →
  KitchenGameManager_instance w' = KitchenGameManager_instance w →
  _is_game_playing m' = _is_game_playing m →
  gate_reading w' = gate_reading w.
Proof.
  intros Hm Hms Hinst Hflag. unfold gate_reading. rewrite Hinst, Hms.
  destruct (KitchenGameManager_instance w) as [g|]; [|done].
  destruct (decide (g = self)) as [->|Hne].
  - by rewrite lookup_insert_eq, Hm, Hflag.
  - by rewrite lookup_insert_ne.
Qed.

Lemma update_run self now random w m :
  managers w !! self = Some m →
  KitchenGameManager.update self now random w =
  let t := timer_after m now in
  let m1 := set_spawn_recipe_timer t (set_last_update_time (Some now) m) in
  if (t <=? 0)%float then
    let m2 := set_spawn_recipe_timer SPAWN_RECIPE_TIMER_MAX m1 in
    let w2 :=
      {| managers := <[self := m2]> (managers w);
         recipe_lists := recipe_lists w;
         kitchen_object_lists := kitchen_object_lists w;
         KitchenGameManager_instance := KitchenGameManager_instance w;
         trace := trace w |} in
    match gate_reading w with
    | Raised e => (Raised e, w2)
    | Ok false => (Ok tt, w2)
    | Ok true =>
        match recipe_lists w !! _waiting_recipe_so_list m with
        | None => (Raised InvalidReference, w2)
        | Some waiting =>
            if Nat.ltb (length waiting) WAITING_RECIPES_MAX then
              match random (recipe_so_list (_recipe_list_so m)) with
              | Ok r =>
                  (Ok tt,
                   {| managers := <[self := m2]> (managers w);
                      recipe_lists :=
                        <[_waiting_recipe_so_list m := waiting ++ [r]]> (recipe_lists w);
                      kitchen_object_lists := kitchen_object_lists w;
                      KitchenGameManager_instance := KitchenGameManager_instance w;
                      trace := trace w ++ fired RecipeSpawned (on_recipe_spawned m) self |})
              | Raised e => (Raised e, w2)
              end
            else (Ok tt, w2)
        end
    end
  else
    (Ok tt,
     {| managers := <[self := m1]> (managers w);
        recipe_lists := recipe_lists w;
        kitchen_object_lists := kitchen_object_lists w;
        KitchenGameManager_instance := KitchenGameManager_instance w;
        trace := trace w |}).
Proof.
  intros Hm. unfold KitchenGameManager.update.
  rewrite (bind_ok _ _ _ _ _ (get_manager_ok _ _ _ Hm)).
  rewrite (bind_ok _ _ _ _ _ (modify_manager_ok _ _ _ _ Hm)).
  erewrite bind_ok; cycle 1.
  { apply modify_manager_ok. world_simpl. apply lookup_insert_eq. }
  erewrite bind_ok; cycle 1.
  { apply get_manager_ok. world_simpl. apply lookup_insert_eq. }
  cbn [_spawn_recipe_timer set_spawn_recipe_timer set_last_update_time _last_update_time
       _waiting_recipe_so_list _recipe_list_so on_recipe_spawned].
  fold (timer_after m now). cbv zeta.
  destruct (timer_after m now <=? 0)%float.
  2:{ unfold ret. f_equal. unfold set_managers. world_simpl.
      by rewrite insert_insert_eq. }
  erewrite bind_ok; cycle 1.
  { apply modify_manager_ok. world_simpl. apply lookup_insert_eq. }
  unfold set_managers. world_simpl. rewrite !insert_insert_eq.
  rewrite gate_read_run.
  erewrite (gate_reading_frame self m _ w); [|done|reflexivity..].
  destruct (gate_reading w) as [[|]|e]; [|done..].
  destruct (recipe_lists w !! _waiting_recipe_so_list m) as [waiting|] eqn:Hq.
  2:{ by erewrite bind_raised by by apply read_recipe_list_none. }
  erewrite bind_ok by by apply read_recipe_list_ok.
  destruct (length waiting <? WAITING_RECIPES_MAX); [|done].
  unfold lift_result at 1. unfold bind at 1.
  destruct (random _) as [r|e]; [|done].
  unfold write_recipe_list, bind. rewrite invoke_run.
  unfold add_trace, set_trace, set_recipe_lists. by world_simpl.
Qed.

Lemma get_kitchen_object_so_list_run p w ings :
  kitchen_object_lists w !! _kitchen_object_so_list p = Some ings →
  PlateKitchenObject.get_kitchen_object_so_list p w =
  (Ok (fresh (dom (kitchen_object_lists w))),
   set_kitchen_object_lists
     (λ h, <[fresh (dom (kitchen_object_lists w)) := ings]> h) w).
Proof.
  intros Hp. unfold PlateKitchenObject.get_kitchen_object_so_list.
  unfold bind, read_kitchen_object_list. by rewrite Hp.
Qed.

Lemma fresh_lookup_None `{Countable K, Infinite K} {A} (h : gmap K A) :
  h !! fresh (dom h) = None.
Proof. apply not_elem_of_dom, is_fresh. Qed.

Lemma deliver_loop_run self plate_ingredients m waiting w rest i :
  managers w !! self = Some m →
  recipe_lists w !! _waiting_recipe_so_list m = Some waiting →
  KitchenGameManager.deliver_loop self plate_ingredients i rest w =
  match first_match plate_ingredients rest with
  | None => (Ok false, w)
  | Some (j, r) => (Ok true, delivered self m waiting (i + j) r w)
  end.
Proof.
  intros Hm Hq. revert i. unfold first_match.
  induction rest as [|r rest IH]; intros i; [done|].
  cbn [KitchenGameManager.deliver_loop list_find].
  destruct (KitchenGameManager._ingredients_match plate_ingredients
              (kitchen_object_so_list r)) eqn:Hmatch.
  - rewrite decide_True by done.
    rewrite (bind_ok _ _ _ _ _ (modify_manager_ok _ _ _ _ Hm)).
    erewrite bind_ok; cycle 1.
    { apply get_manager_ok. world_simpl. apply lookup_insert_eq. }
    cbn [set_successful_recipes_amount _waiting_recipe_so_list on_recipe_completed
         on_recipe_success].
    erewrite bind_ok by by apply read_recipe_list_ok.
    unfold write_recipe_list, logging. unfold bind.
    rewrite emit_run, !invoke_run, !add_trace_add_trace.
    unfold ret, delivered. by rewrite Nat.add_0_r.
  - rewrite decide_False by congruence.
    rewrite IH. destruct (list_find _ rest) as [[j r']|]; simpl; [|done].
    by rewrite Nat.add_succ_r.
Qed.

Lemma deliver_recipe_run self plate w m :
  managers w !! self = Some m →
  KitchenGameManager.deliver_recipe self plate w =
  match plate with
  | None => (Ok tt, rejected self m WARNING "Attempted to deliver a None plate." w)
  | Some p =>
      match kitchen_object_lists w !! _kitchen_object_so_list p with
      | None => (Raised InvalidReference, w)
      | Some plate_ingredients =>
          let w1 :=
            set_kitchen_object_lists
              (λ h, <[fresh (dom (kitchen_object_lists w)) := plate_ingredients]> h) w in
          match plate_ingredients with
          | [] => (Ok tt, rejected self m WARNING "Attempted to deliver an empty plate." w1)
          | _ :: _ =>
              match recipe_lists w !! _waiting_recipe_so_list m with
              | None => (Raised InvalidReference, w1)
              | Some waiting =>
                  match waiting with
                  | [] => (Ok tt, rejected self m WARNING "No waiting recipes to deliver." w1)
                  | _ :: _ =>
                      match first_match plate_ingredients waiting with
                      | Some (i, r) => (Ok tt, delivered self m waiting i r w1)
                      | None =>
                          (Ok tt,
                           rejected self m INFO "No matching recipe found for delivery." w1)
                      end
                  end
              end
          end
      end
  end.
Proof.
  intros Hm. unfold KitchenGameManager.deliver_recipe.
  rewrite (bind_ok _ _ _ _ _ (get_manager_ok _ _ _ Hm)).
  destruct plate as [p|].
  2:{ unfold logging, bind. by rewrite emit_run, invoke_run, add_trace_add_trace. }
  destruct (kitchen_object_lists w !! _kitchen_object_so_list p)
    as [plate_ingredients|] eqn:Hp.
  2:{ unfold PlateKitchenObject.get_kitchen_object_so_list, bind,
        read_kitchen_object_list. by rewrite Hp. }
  rewrite (bind_ok _ _ _ _ _ (get_kitchen_object_so_list_run _ _ _ Hp)).
  erewrite bind_ok; cycle 1.
  { unfold read_kitchen_object_list. world_simpl. by rewrite lookup_insert_eq. }
  cbv zeta. set (w1 := set_kitchen_object_lists _ w).
  destruct plate_ingredients as [|ko kos].
  { unfold logging, bind. by rewrite emit_run, invoke_run, add_trace_add_trace. }
  destruct (recipe_lists w !! _waiting_recipe_so_list m) as [waiting|] eqn:Hq.
  2:{ by erewrite bind_raised by by apply read_recipe_list_none. }
  erewrite bind_ok by by apply read_recipe_list_ok.
  destruct waiting as [|r0 rest].
  { unfold logging, bind. by rewrite emit_run, invoke_run, add_trace_add_trace. }
  unfold bind at 1.
  rewrite (deliver_loop_run self (ko :: kos) m (r0 :: rest) w1 (r0 :: rest) 0 Hm Hq).
  destruct (first_match _ _) as [[i r]|]; [done|].
  unfold logging, bind. by rewrite emit_run, invoke_run, add_trace_add_trace.
Qed.

(** ** Spawning *)

(** [random.choice] on a non-empty catalog returns one of its recipes. *)
Lemma random_choice_nonempty k (seq : list RecipeSO) :
  seq ≠ [] → ∃ r, random_choice k seq = Ok r ∧ r ∈ seq.
Proof.
  intros Hne. unfold random_choice.
  destruct (seq !! (k mod length seq)) as [r|] eqn:Hr.
  - exists r. split; [done|]. by eapply list_elem_of_lookup_2.
  - apply lookup_ge_None in Hr. destruct seq as [|x seq]; [done|].
    pose proof (Nat.mod_upper_bound k (length (x :: seq))) as Hlt.
    simpl in *. lia.
Qed.



(** ** Delivering *)

Lemma first_match_Some plate_ingredients waiting i r :
  first_match plate_ingredients waiting = Some (i, r) ↔
  waiting !! i = Some r ∧
  same_ingredients plate_ingredients (kitchen_object_so_list r) ∧
  ∀ j r', waiting !! j = Some r' → j < i →
    ¬ same_ingredients plate_ingredients (kitchen_object_so_list r').
Proof.
  unfold first_match, same_ingredients. rewrite list_find_Some.
  rewrite ingredients_match_iff.
  split; intros (Hi & Hr & Hfirst); split_and!; try done.
  - intros j r' Hj Hlt. rewrite <- ingredients_match_iff. by apply (Hfirst j).
  - intros j r' Hj Hlt. rewrite ingredients_match_iff. by apply (Hfirst j).
Qed.

Lemma first_match_None plate_ingredients waiting :
  first_match plate_ingredients waiting = None ↔
  ∀ r, r ∈ waiting → ¬ same_ingredients plate_ingredients (kitchen_object_so_list r).
Proof.
  unfold first_match, same_ingredients. rewrite list_find_None, Forall_forall.
  split; intros Hall r Hr.
  - rewrite <- ingredients_match_iff. by apply Hall.
  - rewrite ingredients_match_iff. by apply Hall.
Qed.

(** C2.  A delivery of a plate that exists, is not empty and has the same
    multiset of ingredient identifiers as at least one pending order
    returns normally; the order removed is the first one in queue order
    with that multiset and no other order is touched; the success counter
    grows by one, the manager being otherwise as it was; and the completed
    event, then the success event are fired, in that order. *)
Theorem deliver_matching_plate_succeeds (w : World) (self : loc) (m : KitchenGameManager)
    (waiting : list RecipeSO) (p : PlateKitchenObject)
    (plate_ingredients : list KitchenObjectSO) :
  managers w !! self = Some m →
  recipe_lists w !! _waiting_recipe_so_list m = Some waiting →
  kitchen_object_lists w !! _kitchen_object_so_list p = Some plate_ingredients →
  plate_ingredients ≠ [] →
  (∃ r, r ∈ waiting ∧ same_ingredients plate_ingredients (kitchen_object_so_list r)) →
  ∃ (i : nat) (r : RecipeSO) (w' : World) (m' : KitchenGameManager),
    waiting !! i = Some r ∧
    same_ingredients plate_ingredients (kitchen_object_so_list r) ∧
    (∀ j r', waiting !! j = Some r' → j < i →
       ¬ same_ingredients plate_ingredients (kitchen_object_so_list r')) ∧
    KitchenGameManager.deliver_recipe self (Some p) w = (Ok tt, w') ∧
    recipe_lists w' !! _waiting_recipe_so_list m = Some (delete i waiting) ∧
    queue_of self w' = Some (delete i waiting) ∧
    length (delete i waiting) + 1 = length waiting ∧
    managers w' !! self = Some m' ∧
    _successful_recipes_amount m' = (_successful_recipes_amount m + 1)%Z ∧
    KitchenGameManager.get_successful_recipes_amount self w' =
      (Ok (_successful_recipes_amount m + 1)%Z, w') ∧
    _waiting_recipe_so_list m' = _waiting_recipe_so_list m ∧
    _recipe_list_so m' = _recipe_list_so m ∧
    _spawn_recipe_timer m' = _spawn_recipe_timer m ∧
    _last_update_time m' = _last_update_time m ∧
    _is_game_playing m' = _is_game_playing m ∧
    trace w' =
      trace w ++
      Logged INFO ("Recipe delivered successfully: " +:+ recipe_name r) ::
      fired RecipeCompleted (on_recipe_completed m) self ++
      fired RecipeSuccess (on_recipe_success m) self.
Proof.
  intros Hm Hq Hp Hne (r0 & Hin & Hsame).
  destruct (first_match plate_ingredients waiting) as [[i r]|] eqn:Hfind.
  2:{ exfalso. by apply (proj1 (first_match_None _ _) Hfind r0). }
  pose proof (proj1 (first_match_Some _ _ _ _) Hfind) as (Hi & Hr & Hfirst).
  exists i, r. rewrite (deliver_recipe_run _ _ _ _ Hm), Hp. cbv zeta.
  destruct plate_ingredients as [|ko kos]; [done|].
  rewrite Hq. destruct waiting as [|r1 rest]; [by apply elem_of_nil in Hin|].
  rewrite Hfind.
  assert (managers (delivered self m (r1 :: rest) i r
                      (set_kitchen_object_lists
                         (λ h, <[fresh (dom (kitchen_object_lists w)) := ko :: kos]> h) w))
            !! self =
          Some (set_successful_recipes_amount (_successful_recipes_amount m + 1) m))
    as Hm'.
  { unfold delivered. world_simpl. by rewrite lookup_insert_eq. }
  eexists _, _. split_and!; try done.
  - unfold delivered. world_simpl. by rewrite lookup_insert_eq.
  - unfold queue_of. rewrite Hm'. unfold delivered. world_simpl. simpl.
    by rewrite lookup_insert_eq.
  - rewrite length_delete by by eexists. apply lookup_lt_Some in Hi. simpl in *. lia.
  - unfold KitchenGameManager.get_successful_recipes_amount.
    by rewrite (bind_ok _ _ _ _ _ (get_manager_ok _ _ _ Hm')).
Qed.

(** The registered singleton of the usage example, the game started, its
    queue filled by three updates with sandwich, salad, salad, and a plate
    of tomato and lettuce: the delivery takes the first salad. *)
Lemma deliver_matching_plate_succeeds_example :
  ∃ (i : nat) (r : RecipeSO) (w' : World) (m' : KitchenGameManager),
    [sandwich_recipe; salad_recipe; salad_recipe] !! i = Some r ∧
    KitchenGameManager.deliver_recipe 1%positive (Some sample_plate)
      (snd (sample_script recipe_list 88%float [0; 1; 1] [tomato; lettuce] empty_world))
    = (Ok tt, w') ∧
    recipe_lists w' !! 1%positive =
      Some (delete i [sandwich_recipe; salad_recipe; salad_recipe]) ∧
    managers w' !! 1%positive = Some m' ∧
    _successful_recipes_amount m' = 1%Z.
Proof.
  destruct (deliver_matching_plate_succeeds
              (snd (sample_script recipe_list 88%float [0; 1; 1] [tomato; lettuce]
                      empty_world))
              1%positive (sample_manager recipe_list)
              [sandwich_recipe; salad_recipe; salad_recipe] sample_plate
              [tomato; lettuce] eq_refl eq_refl eq_refl)
    as (i & r & w' & m' & Hi & _ & _ & Hrun & Hq & _ & _ & Hm' & Hcount & _).
  - discriminate.
  - exists salad_recipe. split.
    + apply elem_of_cons. right. apply elem_of_cons. by left.
    + apply ingredients_match_iff. reflexivity.
  - by exists i, r, w', m'.
Defined.


(** C3.  A delivery with no plate, with an empty plate, on an empty queue
    or of a plate no pending order has the multiset of, fires the failure
    event, leaves the pending queue and the manager (so its success
    counter) as they were, and returns normally. *)
Theorem deliver_rejection_changes_nothing (w : World) (self : loc)
    (m : KitchenGameManager) (waiting : list RecipeSO)
    (plate : option PlateKitchenObject) :
  managers w !! self = Some m →
  recipe_lists w !! _waiting_recipe_so_list m = Some waiting →
  (∀ p, plate = Some p →
     is_Some (kitchen_object_lists w !! _kitchen_object_so_list p)) →
  (plate = None ∨
   (∃ p, plate = Some p ∧
      kitchen_object_lists w !! _kitchen_object_so_list p = Some []) ∨
   waiting = [] ∨
   (∃ p plate_ingredients, plate = Some p ∧
      kitchen_object_lists w !! _kitchen_object_so_list p = Some plate_ingredients ∧
      ∀ r, r ∈ waiting →
        ¬ same_ingredients plate_ingredients (kitchen_object_so_list r))) →
  ∃ (w' : World) (level : LogLevel) (msg : string),
    KitchenGameManager.deliver_recipe self plate w = (Ok tt, w') ∧
    trace w' =
      trace w ++ Logged level msg :: fired RecipeFailed (on_recipe_failed m) self ∧
    recipe_lists w' = recipe_lists w ∧
    managers w' = managers w.
Proof.
  intros Hm Hq Hplate Hcase.
  rewrite (deliver_recipe_run _ _ _ _ Hm).
  destruct plate as [p|]; [|by eexists _, _, _].
  destruct (Hplate p eq_refl) as [plate_ingredients Hp].
  rewrite Hp, Hq. cbv zeta.
  destruct plate_ingredients as [|ko kos]; [by eexists _, _, _|].
  destruct waiting as [|r0 rest]; [by eexists _, _, _|].
  destruct (first_match (ko :: kos) (r0 :: rest)) as [[i r]|] eqn:Hfind;
    [|by eexists _, _, _].
  exfalso. apply first_match_Some in Hfind as (Hi & Hr & _).
  destruct Hcase as [?|[(p' & ? & Hp')|[?|(p' & ings & ? & Hp' & Hnone)]]];
    simplify_eq.
  apply (Hnone r); [|done]. by apply list_elem_of_lookup_2 in Hi.
Qed.

(** A plate of tomato and lettuce against a lone sandwich. *)
Lemma deliver_rejection_changes_nothing_example :
  ∃ (w' : World) (level : LogLevel) (msg : string),
    KitchenGameManager.deliver_recipe 1%positive (Some sample_plate)
      (sample_world recipe_list [sandwich_recipe] [tomato; lettuce]) = (Ok tt, w') ∧
    trace w' = [Logged level msg; Fired RecipeFailed 1%positive] ∧
    recipe_lists w' !! 1%positive = Some [sandwich_recipe].
Proof.
  destruct (deliver_rejection_changes_nothing
              (sample_world recipe_list [sandwich_recipe] [tomato; lettuce])
              1%positive (sample_manager recipe_list) [sandwich_recipe]
              (Some sample_plate) eq_refl eq_refl)
    as (w' & level & msg & Hrun & Htrace & Hq & _).
  - intros p [= <-]. by eexists.
  - right. right. right. exists sample_plate, [tomato; lettuce].
    split_and!; [done..|]. intros r Hr Hsame.
    apply list_elem_of_singleton in Hr as ->.
    apply Permutation_length in Hsame. discriminate.
  - exists w', level, msg. split_and!; [done..|]. by rewrite Hq.
Defined.

(** ** The bound on the queue *)

Lemma init_run recipe_list_so w :
  KitchenGameManager.__init__ recipe_list_so w =
  (Ok (fresh (dom (managers w))),
   set_managers
     (λ ms, <[fresh (dom (managers w)) :=
               new_manager recipe_list_so (fresh (dom (recipe_lists w)))]> ms)
     (set_recipe_lists (λ h, <[fresh (dom (recipe_lists w)) := []]> h) w)).
Proof. reflexivity. Qed.

Lemma get_instance_run recipe_list_so w :
  KitchenGameManager.get_instance recipe_list_so w =
  match KitchenGameManager_instance w with
  | Some self => (Ok self, w)
  | None =>
      match recipe_list_so with
      | None =>
          (Raised (ValueError "recipe_list_so is required for initial creation"), w)
      | Some recipe_list_so =>
          (Ok (fresh (dom (managers w))),
           set_KitchenGameManager_instance (Some (fresh (dom (managers w))))
             (set_managers
                (λ ms, <[fresh (dom (managers w)) :=
                          new_manager recipe_list_so (fresh (dom (recipe_lists w)))]> ms)
                (set_recipe_lists (λ h, <[fresh (dom (recipe_lists w)) := []]> h) w)))
      end
  end.
Proof.
  unfold KitchenGameManager.get_instance. unfold bind at 1.
  destruct (KitchenGameManager_instance w); [done|].
  destruct recipe_list_so as [c|]; [|done].
  by rewrite (bind_ok _ _ _ _ _ (init_run _ _)).
Qed.

Lemma switch_run target flag w :
  modify_manager target (set_is_game_playing flag) w =
  match managers w !! target with
  | None => (Raised InvalidReference, w)
  | Some g =>
      (Ok tt, set_managers (λ ms, <[target := set_is_game_playing flag g]> ms) w)
  end.
Proof. unfold modify_manager. by destruct (managers w !! target). Qed.

Lemma length_delete_le {A} (l : list A) i : length (delete i l) ≤ length l.
Proof.
  revert i. induction l as [|x l IH]; intros [|i]; simpl; try lia.
  specialize (IH i). lia.
Qed.

Lemma get_waiting_recipe_so_list_run self w m q :
  managers w !! self = Some m →
  recipe_lists w !! _waiting_recipe_so_list m = Some q →
  KitchenGameManager.get_waiting_recipe_so_list self w =
  (Ok (fresh (dom (recipe_lists w))),
   set_recipe_lists (λ h, <[fresh (dom (recipe_lists w)) := q]> h) w).
Proof.
  intros Hm Hq. unfold KitchenGameManager.get_waiting_recipe_so_list.
  rewrite (bind_ok _ _ _ _ _ (get_manager_ok _ _ _ Hm)).
  by rewrite (bind_ok _ _ _ _ _ (read_recipe_list_ok _ _ _ Hq)).
Qed.

Lemma fresh_ne_allocated {A} (h : gmap loc A) l :
  is_Some (h !! l) → fresh (dom h) ≠ l.
Proof.
  intros [x Hl] Heq. pose proof (fresh_lookup_None h) as Hnone.
  rewrite Heq in Hnone. congruence.
Qed.

Lemma constructed_inv recipe_list_so w0 self w1 :
  constructed recipe_list_so w0 self w1 →
  managers w1 !! self = Some (new_manager recipe_list_so (fresh (dom (recipe_lists w0)))) ∧
  recipe_lists w1 !! fresh (dom (recipe_lists w0)) = Some [] ∧
  trace w1 = trace w0.
Proof.
  intros [Hinit|[Hnone Hget]].
  - rewrite init_run in Hinit. injection Hinit as <- <-. world_simpl.
    by rewrite !lookup_insert_eq.
  - rewrite get_instance_run, Hnone in Hget. injection Hget as <- <-. world_simpl.
    by rewrite !lookup_insert_eq.
Qed.

(** What one call does to a manager and its queue: the manager object
    stays where it is and keeps its queue reference; the queue stays, or
    gains one order while below capacity, or loses one; and only [update]
    touches the timer and the time of the last update. *)
Lemma call_effect self c w m q :
  managers w !! self = Some m →
  recipe_lists w !! _waiting_recipe_so_list m = Some q →
  ∃ m' q',
    managers (snd (run_call self c w)) !! self = Some m' ∧
    _waiting_recipe_so_list m' = _waiting_recipe_so_list m ∧
    recipe_lists (snd (run_call self c w)) !! _waiting_recipe_so_list m = Some q' ∧
    queue_step q q' ∧
    (is_update c = false →
     _last_update_time m' = _last_update_time m ∧
     _spawn_recipe_timer m' = _spawn_recipe_timer m).
Proof.
  intros Hm Hq.
  destruct c as [now random|plate|target|target|again| |ev h|ev h| |plate ko|f];
    cbn [run_call is_update].
  - rewrite (update_run _ _ _ _ _ Hm). cbv zeta. rewrite Hq.
    destruct (timer_after m now <=? 0)%float;
      [|cbn [snd]; world_simpl; rewrite lookup_insert_eq;
        eexists _, q; split_and!; by try constructor].
    destruct (gate_reading w) as [[|]|e];
      [|cbn [snd]; world_simpl; rewrite lookup_insert_eq;
        eexists _, q; split_and!; by try constructor..].
    destruct (Nat.ltb (length q) WAITING_RECIPES_MAX) eqn:Hlen;
      [|cbn [snd]; world_simpl; rewrite lookup_insert_eq;
        eexists _, q; split_and!; by try constructor].
    apply Nat.ltb_lt in Hlen.
    destruct (random _) as [r|e]; cbn [snd]; world_simpl; rewrite ?lookup_insert_eq.
    + eexists _, (q ++ [r]). split_and!; by try constructor.
    + eexists _, q. split_and!; by try constructor.
  - rewrite (deliver_recipe_run _ _ _ _ Hm).
    destruct plate as [p|]; [|by exists m, q; split_and!; try constructor].
    destruct (kitchen_object_lists w !! _kitchen_object_so_list p) as [ings|];
      [|by exists m, q; split_and!; try constructor].
    cbv zeta. destruct ings as [|ko kos];
      [by exists m, q; split_and!; try constructor|].
    rewrite Hq. destruct q as [|r0 rest];
      [by exists m, []; split_and!; try constructor|].
    destruct (first_match _ _) as [[i r]|];
      [|by exists m, (r0 :: rest); split_and!; try constructor].
    unfold delivered. cbn [snd]. world_simpl. rewrite !lookup_insert_eq.
    eexists _, (delete i (r0 :: rest)). split_and!; by try constructor.
  - unfold KitchenGameManager.start_game. rewrite switch_run.
    destruct (managers w !! target) as [g|] eqn:Hg;
      [|by exists m, q; split_and!; try constructor].
    cbn [snd]. world_simpl. destruct (decide (target = self)) as [->|Hne].
    + rewrite lookup_insert_eq. simplify_eq.
      eexists _, q. split_and!; by try constructor.
    + rewrite lookup_insert_ne by done. by exists m, q; split_and!; try constructor.
  - unfold KitchenGameManager.stop_game. rewrite switch_run.
    destruct (managers w !! target) as [g|] eqn:Hg;
      [|by exists m, q; split_and!; try constructor].
    cbn [snd]. world_simpl. destruct (decide (target = self)) as [->|Hne].
    + rewrite lookup_insert_eq. simplify_eq.
      eexists _, q. split_and!; by try constructor.
    + rewrite lookup_insert_ne by done. by exists m, q; split_and!; try constructor.
  - unfold bind, ret. rewrite get_instance_run.
    destruct (KitchenGameManager_instance w);
      [by exists m, q; split_and!; try constructor|].
    destruct again as [recipe_list_so|];
      [|by exists m, q; split_and!; try constructor].
    cbn [snd]. world_simpl.
    rewrite !lookup_insert_ne by (apply fresh_ne_allocated; by eexists).
    by exists m, q; split_and!; try constructor.
  - by exists m, q; split_and!; try constructor.
  - unfold subscribe. rewrite (modify_manager_ok _ _ _ _ Hm).
    cbn [snd]. world_simpl. rewrite lookup_insert_eq.
    eexists _, q. split_and!; by try constructor.
  - unfold unsubscribe. rewrite (modify_manager_ok _ _ _ _ Hm).
    cbn [snd]. world_simpl. rewrite lookup_insert_eq.
    eexists _, q. split_and!; by try constructor.
  - by exists m, q; split_and!; try constructor.
  - unfold PlateKitchenObject.add_kitchen_object, bind, read_kitchen_object_list.
    destruct (kitchen_object_lists w !! _kitchen_object_so_list plate);
      by exists m, q; split_and!; try constructor.
  - rewrite (bind_ok _ _ _ _ _ (get_waiting_recipe_so_list_run _ _ _ _ Hm Hq)).
    unfold mutate_recipe_list. erewrite bind_ok; cycle 1.
    { apply read_recipe_list_ok. world_simpl. apply lookup_insert_eq. }
    assert (fresh (dom (recipe_lists w)) ≠ _waiting_recipe_so_list m) as Hne
      by by apply fresh_ne_allocated.
    cbn [snd write_recipe_list]. world_simpl. rewrite !lookup_insert_ne by done.
    exists m, q. split_and!; by try constructor.
Qed.

Lemma queue_bounded_call self c w :
  (∃ q, queue_of self w = Some q ∧ length q ≤ WAITING_RECIPES_MAX) →
  ∃ q, queue_of self (snd (run_call self c w)) = Some q ∧
       length q ≤ WAITING_RECIPES_MAX.
Proof.
  intros (q & Hq & Hlen). unfold queue_of in *.
  destruct (managers w !! self) as [m|] eqn:Hm; [|done]. simpl in Hq.
  destruct (call_effect self c w m q Hm Hq) as (m' & q' & -> & Hloc & Hq' & Hstep & _).
  simpl. rewrite Hloc, Hq'. exists q'. split; [done|].
  destruct Hstep as [|r Hroom|i].
  - done.
  - rewrite length_app. simpl. lia.
  - pose proof (length_delete_le q i). lia.
Qed.

Lemma queue_bounded_calls self cs w :
  (∃ q, queue_of self w = Some q ∧ length q ≤ WAITING_RECIPES_MAX) →
  ∃ q, queue_of self (run_calls self cs w) = Some q ∧
       length q ≤ WAITING_RECIPES_MAX.
Proof.
  revert w. induction cs as [|c cs IH]; intros w Hinv; [done|].
  simpl. by apply IH, queue_bounded_call.
Qed.

Lemma queue_of_constructed recipe_list_so w0 self w1 :
  constructed recipe_list_so w0 self w1 → queue_of self w1 = Some [].
Proof.
  intros Hnew. apply constructed_inv in Hnew as (Hm & Hq & _).
  unfold queue_of. by rewrite Hm.
Qed.

(** C4.  After any sequence of [update] and [deliver_recipe] calls on a
    freshly constructed manager (made by a call of the class or by the
    [get_instance] that registers the singleton), whatever the clock
    readings, the random source and the plates, and whatever client code
    does in between (starting and stopping the game on any manager, calling
    [get_instance] and [reset_instance], subscribing and unsubscribing
    handlers, making and filling plates, mutating snapshots of the queue),
    the pending queue holds at most WAITING_RECIPES_MAX orders. *)
Theorem queue_never_exceeds_capacity (recipe_list_so : RecipeListSO)
    (w0 w1 : World) (self : loc) (calls : list Call) :
  constructed recipe_list_so w0 self w1 →
  ∃ q, queue_of self (run_calls self calls w1) = Some q ∧
       length q ≤ WAITING_RECIPES_MAX.
Proof.
  intros Hnew. apply queue_bounded_calls.
  exists []. split; [by eapply queue_of_constructed|]. simpl. lia.
Qed.

(** The session of the example below: the singleton of the usage example
    is registered, the game is started on it, and six spawn attempts
    follow, four seconds apart, with a subscriber, a null delivery and a
    doubled snapshot on the way. *)
Lemma queue_never_exceeds_capacity_example :
  ∃ q : list RecipeSO,
    queue_of 1%positive
      (run_calls 1%positive
         [CallStartGame 1%positive;
          CallSubscribe RecipeSpawned {| handler_id := 0; handler_fault := None |};
          CallUpdate 0%float (random_choice 0); CallUpdate 4%float (random_choice 1);
          CallUpdate 8%float (random_choice 2); CallUpdate 12%float (random_choice 3);
          CallUpdate 16%float (random_choice 4); CallDeliver None;
          CallMutateSnapshot (λ q, q ++ q);
          CallUpdate 20%float (random_choice 5)]
         registered_world) = Some q ∧
    length q ≤ WAITING_RECIPES_MAX.
Proof.
  apply (queue_never_exceeds_capacity recipe_list empty_world).
  right. split; reflexivity.
Defined.

(** In that session the queue does fill up: four orders are pending at the
    end, the fifth and sixth attempts having found it full. *)
Example queue_fills_to_capacity :
  queue_of 1%positive
    (run_calls 1%positive
       [CallStartGame 1%positive;
        CallSubscribe RecipeSpawned {| handler_id := 0; handler_fault := None |};
        CallUpdate 0%float (random_choice 0); CallUpdate 4%float (random_choice 1);
        CallUpdate 8%float (random_choice 2); CallUpdate 12%float (random_choice 3);
        CallUpdate 16%float (random_choice 4); CallDeliver None;
        CallMutateSnapshot (λ q, q ++ q);
        CallUpdate 20%float (random_choice 5)]
       registered_world)
  = Some [salad_recipe; sandwich_recipe; salad_recipe; sandwich_recipe].
Proof. vm_compute. reflexivity. Qed.

(** ** The first [update] *)

Lemma float_eq_of_Prim2SF x y : Prim2SF x = Prim2SF y → x = y.
Proof.
  intros H. rewrite <- (SF2Prim_Prim2SF x), <- (SF2Prim_Prim2SF y). by rewrite H.
Qed.

Lemma finite_sub_self (x : float) : is_finite x = true → (x - x)%float = 0%float.
Proof.
  intros Hfin. apply float_eq_of_Prim2SF. rewrite sub_spec.
  unfold is_finite, is_nan, is_infinity in Hfin.
  rewrite !FloatAxioms.eqb_spec, abs_spec in Hfin.
  destruct (Prim2SF x) as [s|s| |s mx e] eqn:Hx.
  - destruct s; reflexivity.
  - destruct s; discriminate.
  - discriminate.
  - clear Hfin Hx. unfold SF64sub, SFsub. rewrite Z.sub_diag. reflexivity.
Qed.

Lemma timer_max_sub_zero : (SPAWN_RECIPE_TIMER_MAX - 0)%float = SPAWN_RECIPE_TIMER_MAX.
Proof. reflexivity. Qed.
Lemma timer_max_positive : (SPAWN_RECIPE_TIMER_MAX <=? 0)%float = false.
Proof. reflexivity. Qed.

Lemma pristine_calls self cs w m q :
  forallb (λ c, negb (is_update c)) cs = true →
  managers w !! self = Some m →
  recipe_lists w !! _waiting_recipe_so_list m = Some q →
  ∃ m', managers (run_calls self cs w) !! self = Some m' ∧
        _last_update_time m' = _last_update_time m ∧
        _spawn_recipe_timer m' = _spawn_recipe_timer m.
Proof.
  revert w m q. induction cs as [|c cs IH]; intros w m q Hcs Hm Hq; [by exists m|].
  simpl in Hcs. apply andb_true_iff in Hcs as [Hc Hcs].
  apply negb_true_iff in Hc.
  destruct (call_effect self c w m q Hm Hq)
    as (m1 & q1 & Hm1 & Hloc & Hq1 & _ & Hkeep).
  destruct (Hkeep Hc) as [Hlast Htimer].
  rewrite <- Hloc in Hq1.
  destruct (IH _ m1 q1 Hcs Hm1 Hq1) as (m2 & Hm2 & Hlast2 & Htimer2).
  exists m2. simpl. split_and!; [done|congruence..].
Qed.

Lemma first_update_run self now random w m :
  managers w !! self = Some m →
  _last_update_time m = None →
  _spawn_recipe_timer m = SPAWN_RECIPE_TIMER_MAX →
  is_finite now = true →
  KitchenGameManager.update self now random w =
  (Ok tt, set_managers (λ ms, <[self := set_last_update_time (Some now) m]> ms) w).
Proof.
  intros Hm Hlast Htimer Hfin. rewrite (update_run _ _ _ _ _ Hm). cbv zeta.
  unfold timer_after. rewrite Hlast, Htimer, (finite_sub_self now Hfin).
  rewrite timer_max_sub_zero, timer_max_positive.
  unfold set_managers. do 3 f_equal.
  destruct m; simpl in *. by subst.
Qed.

(** C9, as stated, fails: the first [update] of the registered singleton
    of the usage example, the clock reading being infinite, returns
    normally and leaves a timer that is no longer SPAWN_RECIPE_TIMER_MAX
    but not-a-number ([inf - inf]). *)
Lemma first_update_at_infinity_spoils_timer :
  ∃ (w' : World) (m' : KitchenGameManager),
    _last_update_time <$> managers registered_world !! 1%positive = Some None ∧
    _spawn_recipe_timer <$> managers registered_world !! 1%positive =
      Some SPAWN_RECIPE_TIMER_MAX ∧
    KitchenGameManager.update 1%positive infinity (random_choice 0) registered_world
    = (Ok tt, w') ∧
    managers w' !! 1%positive = Some m' ∧
    is_nan (_spawn_recipe_timer m') = true ∧
    (_spawn_recipe_timer m' =? SPAWN_RECIPE_TIMER_MAX)%float = false.
Proof. eexists _, _. split_and!; vm_compute; reflexivity. Qed.

(** C9, amended.  The first call to [update] on a manager, whatever calls
    other than [update] came before it, given a finite clock reading: it
    returns normally and the store it leaves differs from the one it found
    only in the manager's [_last_update_time], now the reading.  So nothing
    is spawned, no event is fired, and timer (still
    SPAWN_RECIPE_TIMER_MAX), queue and success counter are as they
    were. *)
Theorem first_update_only_records_baseline (recipe_list_so : RecipeListSO)
    (w0 w1 : World) (self : loc) (calls : list Call) (now : float)
    (random : list RecipeSO → Result RecipeSO) :
  constructed recipe_list_so w0 self w1 →
  forallb (λ c, negb (is_update c)) calls = true →
  is_finite now = true →
  let w := run_calls self calls w1 in
  ∃ (m m' : KitchenGameManager) (w' : World),
    managers w !! self = Some m ∧
    _last_update_time m = None ∧
    KitchenGameManager.update self now random w = (Ok tt, w') ∧
    w' = set_managers (λ ms, <[self := set_last_update_time (Some now) m]> ms) w ∧
    managers w' !! self = Some m' ∧
    _last_update_time m' = Some now ∧
    _spawn_recipe_timer m' = _spawn_recipe_timer m ∧
    _spawn_recipe_timer m' = SPAWN_RECIPE_TIMER_MAX ∧
    _successful_recipes_amount m' = _successful_recipes_amount m ∧
    _waiting_recipe_so_list m' = _waiting_recipe_so_list m ∧
    _is_game_playing m' = _is_game_playing m ∧
    queue_of self w' = queue_of self w ∧
    recipe_lists w' = recipe_lists w ∧
    trace w' = trace w ∧
    KitchenGameManager_instance w' = KitchenGameManager_instance w.
Proof.
  intros Hnew Hcalls Hfin w.
  apply constructed_inv in Hnew as (Hm1 & Hq1 & _).
  destruct (pristine_calls self calls w1 _ [] Hcalls Hm1 Hq1)
    as (m & Hm & Hlast & Htimer).
  simpl in Hlast, Htimer.
  exists m, (set_last_update_time (Some now) m),
    (set_managers (λ ms, <[self := set_last_update_time (Some now) m]> ms) w).
  split_and!; [done|done|by apply first_update_run|reflexivity|..]; try done.
  - world_simpl. apply lookup_insert_eq.
  - unfold queue_of. subst w. world_simpl. by rewrite lookup_insert_eq, Hm.
Qed.

(** The registered singleton of the usage example: the game is started, a
    handler subscribed and a null plate delivered before the first update,
    at time 100. *)
Lemma first_update_only_records_baseline_example :
  ∃ (w w' : World) (m m' : KitchenGameManager),
    w = run_calls 1%positive
          [CallStartGame 1%positive;
           CallSubscribe RecipeFailed {| handler_id := 0; handler_fault := None |};
           CallDeliver None]
          registered_world ∧
    managers w !! 1%positive = Some m ∧
    _last_update_time m = None ∧
    KitchenGameManager.update 1%positive 100%float (random_choice 0) w = (Ok tt, w') ∧
    managers w' !! 1%positive = Some m' ∧
    _last_update_time m' = Some 100%float ∧
    _spawn_recipe_timer m' = SPAWN_RECIPE_TIMER_MAX ∧
    queue_of 1%positive w' = queue_of 1%positive w ∧
    trace w' = trace w.
Proof.
  destruct (first_update_only_records_baseline recipe_list empty_world
              registered_world 1%positive
              [CallStartGame 1%positive;
               CallSubscribe RecipeFailed {| handler_id := 0; handler_fault := None |};
               CallDeliver None]
              100%float (random_choice 0))
    as (m & m' & w' & Hm & Hnone & Hrun & _ & Hm' & Hlast & _ & Htimer & _ & _ & _ &
        Hq & _ & Htr & _).
  - right. split; reflexivity.
  - reflexivity.
  - reflexivity.
  - eexists _, w', m, m'. split; [reflexivity|]. split_and!; assumption.
Defined.


(** ** Construction *)

(** C6, as stated, fails: a manager is constructed from an empty catalog,
    by a call of the class and through the singleton getter, with no
    error, and holds that catalog. *)
Lemma empty_catalog_is_accepted :
  fst (KitchenGameManager.__init__ {| recipe_so_list := [] |} empty_world) = Ok 1%positive ∧
  fst (KitchenGameManager.get_instance (Some {| recipe_so_list := [] |}) empty_world)
  = Ok 1%positive ∧
  _recipe_list_so <$>
    managers (snd (KitchenGameManager.get_instance (Some {| recipe_so_list := [] |})
                     empty_world)) !! 1%positive
  = Some {| recipe_so_list := [] |}.
Proof. split_and!; vm_compute; reflexivity. Qed.

Lemma random_choice_empty k :
  random_choice k [] = Raised (IndexError "Cannot choose from an empty sequence").
Proof. reflexivity. Qed.

(** C6, amended.  First-constructing the singleton with no catalog fails
    at once with [ValueError] and leaves the store as it was.  Constructing
    a manager from an empty catalog succeeds, by a call of the class and
    through the singleton getter, which registers it.  The failure comes
    at the first spawn attempt: with the game started on the singleton and
    the baseline taken at a finite time [t0], the [update] at a time [t1]
    by which the timer has expired, with [random.choice], raises
    [IndexError]; nothing is queued and no event is fired. *)
Theorem construction_rejects_only_missing_catalog (w0 : World)
    (recipe_list_so : RecipeListSO) (t0 t1 : float) (k : nat) :
  KitchenGameManager_instance w0 = None →
  recipe_so_list recipe_list_so = [] →
  is_finite t0 = true →
  (SPAWN_RECIPE_TIMER_MAX - (t1 - t0) <=? 0)%float = true →
  KitchenGameManager.get_instance None w0 =
    (Raised (ValueError "recipe_list_so is required for initial creation"), w0) ∧
  (∃ (new : loc) (w' : World) (m' : KitchenGameManager),
     KitchenGameManager.__init__ recipe_list_so w0 = (Ok new, w') ∧
     managers w' !! new = Some m' ∧
     _recipe_list_so m' = recipe_list_so) ∧
  ∃ (self : loc) (w1 w2 w3 : World) (m1 : KitchenGameManager),
    KitchenGameManager.get_instance (Some recipe_list_so) w0 = (Ok self, w1) ∧
    KitchenGameManager_instance w1 = Some self ∧
    managers w1 !! self = Some m1 ∧
    _recipe_list_so m1 = recipe_list_so ∧
    KitchenGameManager.start_game self w1 = (Ok tt, w2) ∧
    KitchenGameManager.update self t0 (random_choice k) w2 = (Ok tt, w3) ∧
    queue_of self w3 = Some [] ∧
    ∃ (msg : string) (w4 : World),
      KitchenGameManager.update self t1 (random_choice k) w3
      = (Raised (IndexError msg), w4) ∧
      queue_of self w4 = Some [] ∧
      recipe_lists w4 = recipe_lists w3 ∧
      trace w4 = trace w3.
Proof.
  intros Hnone Hempty Hfin Hdue. split_and!.
  - by apply get_instance_missing.
  - rewrite init_run. eexists _, _, _. split; [done|]. world_simpl.
    by rewrite lookup_insert_eq.
  - rewrite get_instance_run, Hnone.
    set (self := fresh (dom (managers w0))).
    set (l := fresh (dom (recipe_lists w0))).
    set (w1 := set_KitchenGameManager_instance _ _).
    set (m1 := new_manager recipe_list_so l).
    assert (managers w1 !! self = Some m1) as Hm1
      by (subst w1; world_simpl; apply lookup_insert_eq).
    set (m2 := set_is_game_playing (Some true) m1).
    set (w2 := set_managers (λ ms, <[self := m2]> ms) w1).
    assert (managers w2 !! self = Some m2) as Hm2
      by (subst w2; world_simpl; apply lookup_insert_eq).
    set (m3 := set_last_update_time (Some t0) m2).
    set (w3 := set_managers (λ ms, <[self := m3]> ms) w2).
    assert (managers w3 !! self = Some m3) as Hm3
      by (subst w3; world_simpl; apply lookup_insert_eq).
    assert (recipe_lists w3 !! l = Some []) as Hq3
      by (subst w3 w2 w1; world_simpl; apply lookup_insert_eq).
    assert (gate_reading w3 = Ok true) as Hgate.
    { unfold gate_reading. change (KitchenGameManager_instance w3) with (Some self).
      cbv beta iota. by rewrite Hm3. }
    exists self, w1, w2, w3, m1. split_and!; try done.
    + unfold KitchenGameManager.start_game. by rewrite switch_run, Hm1.
    + by apply first_update_run.
    + unfold queue_of. by rewrite Hm3.
    + rewrite (update_run _ _ _ _ _ Hm3). cbv zeta.
      unfold timer_after.
      cbn [m3 m2 m1 new_manager _last_update_time _spawn_recipe_timer
           set_last_update_time set_is_game_playing _waiting_recipe_so_list
           _recipe_list_so].
      rewrite Hdue, Hgate, Hq3, Hempty, random_choice_empty.
      cbn [length Nat.ltb Nat.leb WAITING_RECIPES_MAX].
      eexists _, _. split; [done|]. split_and!; try done.
      unfold queue_of. world_simpl. rewrite lookup_insert_eq. simpl.
      exact Hq3.
Qed.

(** A singleton registered with the empty catalog on an empty store, the
    game started, the baseline taken at time 100: the update 4.5 seconds
    later is the first spawn attempt. *)
Lemma construction_rejects_only_missing_catalog_example :
  ∃ (w3 w4 : World),
    fst (KitchenGameManager.get_instance (Some {| recipe_so_list := [] |}) empty_world)
    = Ok 1%positive ∧
    w3 = snd (KitchenGameManager.update 1%positive 100%float (random_choice 0)
                (snd (KitchenGameManager.start_game 1%positive
                        (snd (KitchenGameManager.get_instance
                                (Some {| recipe_so_list := [] |}) empty_world))))) ∧
    KitchenGameManager.update 1%positive 104.5%float (random_choice 0) w3
    = (Raised (IndexError "Cannot choose from an empty sequence"), w4) ∧
    queue_of 1%positive w4 = Some [].
Proof.
  destruct (construction_rejects_only_missing_catalog empty_world
              {| recipe_so_list := [] |} 100%float 104.5%float 0
              eq_refl eq_refl eq_refl eq_refl)
    as (_ & _ & self & w1 & w2 & w3 & m1 & Hget & _ & _ & _ & Hstart & Hbase & _ &
        msg & w4 & Hrun & Hq & _).
  assert (self = 1%positive) as -> by (injection Hget as <- _; reflexivity).
  assert (w1 = snd (KitchenGameManager.get_instance
                      (Some {| recipe_so_list := [] |}) empty_world)) as ->
    by by rewrite Hget.
  assert (w2 = snd (KitchenGameManager.start_game 1%positive
                      (snd (KitchenGameManager.get_instance
                              (Some {| recipe_so_list := [] |}) empty_world)))) as ->
    by by rewrite Hstart.
  exists w3, w4. split_and!; [reflexivity|by rewrite Hbase| |done].
  rewrite Hrun. f_equal. f_equal.
  assert (fst (KitchenGameManager.update 1%positive 104.5%float (random_choice 0) w3)
          = Raised (IndexError msg)) as Hfst by by rewrite Hrun.
  assert (w3 = snd (KitchenGameManager.update 1%positive 100%float (random_choice 0)
                      (snd (KitchenGameManager.start_game 1%positive
                              (snd (KitchenGameManager.get_instance
                                      (Some {| recipe_so_list := [] |}) empty_world))))))
    as Hw3 by by rewrite Hbase.
  rewrite Hw3 in Hfst. vm_compute in Hfst. by injection Hfst as <-.
Defined.


(** ** The snapshot of the queue *)

(** C8.  Two calls of the getter with nothing in between return two new
    list objects, each holding the orders of the queue, and neither being
    the queue's own list object; mutating the first in place (its contents
    become any [f] of what they were) leaves the queue, the other snapshot
    and what a later call of the getter returns as they were. *)
Theorem snapshots_are_equal_copies (w : World) (self : loc) (m : KitchenGameManager)
    (q : list RecipeSO) (f : list RecipeSO → list RecipeSO) :
  managers w !! self = Some m →
  recipe_lists w !! _waiting_recipe_so_list m = Some q →
  ∃ (s1 s2 : loc) (w1 w2 w3 : World),
    KitchenGameManager.get_waiting_recipe_so_list self w = (Ok s1, w1) ∧
    KitchenGameManager.get_waiting_recipe_so_list self w1 = (Ok s2, w2) ∧
    recipe_lists w2 !! s1 = Some q ∧
    recipe_lists w2 !! s2 = Some q ∧
    s1 ≠ _waiting_recipe_so_list m ∧
    s2 ≠ _waiting_recipe_so_list m ∧
    s1 ≠ s2 ∧
    mutate_recipe_list s1 f w2 = (Ok tt, w3) ∧
    recipe_lists w3 !! s1 = Some (f q) ∧
    recipe_lists w3 !! s2 = Some q ∧
    queue_of self w3 = Some q ∧
    ∃ (s3 : loc) (w4 : World),
      KitchenGameManager.get_waiting_recipe_so_list self w3 = (Ok s3, w4) ∧
      recipe_lists w4 !! s3 = Some q.
Proof.
  intros Hm Hq.
  set (s1 := fresh (dom (recipe_lists w))).
  set (w1 := set_recipe_lists (λ h, <[s1 := q]> h) w).
  assert (s1 ≠ _waiting_recipe_so_list m) as Hs1 by by apply fresh_ne_allocated.
  assert (managers w1 !! self = Some m) as Hm1 by done.
  assert (recipe_lists w1 !! _waiting_recipe_so_list m = Some q) as Hq1.
  { subst w1. world_simpl. by rewrite lookup_insert_ne. }
  set (s2 := fresh (dom (recipe_lists w1))).
  set (w2 := set_recipe_lists (λ h, <[s2 := q]> h) w1).
  assert (s2 ≠ _waiting_recipe_so_list m) as Hs2 by by apply fresh_ne_allocated.
  assert (s2 ≠ s1) as Hs21.
  { apply fresh_ne_allocated. subst w1. world_simpl. by rewrite lookup_insert_eq. }
  set (w3 := set_recipe_lists (λ h, <[s1 := f q]> h) w2).
  assert (recipe_lists w2 !! s1 = Some q) as Hw2s1.
  { subst w2 w1. world_simpl. by rewrite lookup_insert_ne, lookup_insert_eq. }
  assert (recipe_lists w3 !! _waiting_recipe_so_list m = Some q) as Hq3.
  { subst w3 w2. world_simpl. by rewrite !lookup_insert_ne. }
  exists s1, s2, w1, w2, w3. split_and!; try done.
  - by apply (get_waiting_recipe_so_list_run self w m q).
  - by apply (get_waiting_recipe_so_list_run self w1 m q).
  - subst w2. world_simpl. by rewrite lookup_insert_eq.
  - unfold mutate_recipe_list.
    by rewrite (bind_ok _ _ _ _ _ (read_recipe_list_ok _ _ _ Hw2s1)).
  - subst w3. world_simpl. by rewrite lookup_insert_eq.
  - subst w3 w2. world_simpl. by rewrite lookup_insert_ne, lookup_insert_eq.
  - unfold queue_of. change (managers w3) with (managers w). by rewrite Hm.
  - eexists _, _. split; [by apply (get_waiting_recipe_so_list_run self w3 m q)|].
    world_simpl. by rewrite lookup_insert_eq.
Qed.

(** Two snapshots of a queue holding one salad, the first then cleared. *)
Lemma snapshots_are_equal_copies_example :
  ∃ (s1 s2 : loc) (w1 w2 w3 : World),
    KitchenGameManager.get_waiting_recipe_so_list 1%positive
      (sample_world recipe_list [salad_recipe] []) = (Ok s1, w1) ∧
    KitchenGameManager.get_waiting_recipe_so_list 1%positive w1 = (Ok s2, w2) ∧
    recipe_lists w2 !! s1 = recipe_lists w2 !! s2 ∧
    mutate_recipe_list s1 (λ _, []) w2 = (Ok tt, w3) ∧
    queue_of 1%positive w3 = Some [salad_recipe].
Proof.
  destruct (snapshots_are_equal_copies (sample_world recipe_list [salad_recipe] [])
              1%positive (sample_manager recipe_list) [salad_recipe] (λ _, [])
              eq_refl eq_refl)
    as (s1 & s2 & w1 & w2 & w3 & H1 & H2 & Hs1 & Hs2 & _ & _ & _ & Hmut & _ & _ & Hq & _).
  exists s1, s2, w1, w2, w3. split_and!; [done..|congruence|done|done].
Defined.


(** ** The plate *)

(** C10.  Whatever the store, the manager and the outcome of the call, the
    list object of a delivered plate holds after [deliver_recipe] what it
    held before: the manager reads a copy, made by the plate's getter, and
    writes to no list of kitchen objects but that copy. *)
Theorem deliver_leaves_plate_untouched (self : loc) (p : PlateKitchenObject) (w : World) :
  kitchen_object_lists (snd (KitchenGameManager.deliver_recipe self (Some p) w))
    !! _kitchen_object_so_list p
  = kitchen_object_lists w !! _kitchen_object_so_list p.
Proof.
  destruct (managers w !! self) as [m|] eqn:Hm.
  2:{ unfold KitchenGameManager.deliver_recipe.
      erewrite bind_raised; [done|]. unfold get_manager. by rewrite Hm. }
  rewrite (deliver_recipe_run _ _ _ _ Hm).
  destruct (kitchen_object_lists w !! _kitchen_object_so_list p)
    as [plate_ingredients|] eqn:Hp; [|done].
  assert (fresh (dom (kitchen_object_lists w)) ≠ _kitchen_object_so_list p) as Hne
    by by apply fresh_ne_allocated.
  cbv zeta.
  destruct plate_ingredients as [|ko kos].
  { unfold rejected. cbn [snd]. world_simpl. by rewrite lookup_insert_ne. }
  destruct (recipe_lists w !! _waiting_recipe_so_list m) as [waiting|].
  2:{ cbn [snd]. world_simpl. by rewrite lookup_insert_ne. }
  destruct waiting as [|r0 rest].
  { unfold rejected. cbn [snd]. world_simpl. by rewrite lookup_insert_ne. }
  destruct (first_match _ _) as [[i r]|].
  - unfold delivered. cbn [snd]. world_simpl. by rewrite lookup_insert_ne.
  - unfold rejected. cbn [snd]. world_simpl. by rewrite lookup_insert_ne.
Qed.

(** * Further properties of the module *)

(** ** Events: unsubscribing *)

Lemma filter_ne_absent (h : Handler) (l : list Handler) : h ∉ l → filter (λ x, x ≠ h) l = l.
Proof.
  induction l as [|y l IH]; intros Hin; [done|].
  rewrite filter_cons. apply not_elem_of_cons in Hin as [Hne Hin].
  rewrite decide_True by done. by rewrite IH.
Qed.

Lemma list_remove_filter (h : Handler) l :
  NoDup l → Event.list_remove h l = filter (λ x, x ≠ h) l.
Proof.
  induction 1 as [|y l Hy Hnd IH]; [done|].
  cbn [Event.list_remove]. rewrite filter_cons. case_bool_decide as Heq.
  - subst y. rewrite decide_False by (intros Hne; by apply Hne).
    by rewrite filter_ne_absent.
  - rewrite decide_True by done. by rewrite IH.
Qed.

Lemma remove_handler_filter h e :
  NoDup (_handlers e) →
  _handlers (Event.remove_handler h e) = filter (λ x, x ≠ h) (_handlers e).
Proof.
  intros Hnd. unfold Event.remove_handler. case_bool_decide as Hin; simpl.
  - by apply list_remove_filter.
  - by rewrite filter_ne_absent.
Qed.

(** X1.  On an event reached by [add_handler] and [remove_handler] calls,
    [remove_handler] takes the handler out and keeps the others in their
    order (it is a no-op when the handler is not registered): firing the
    event afterwards never calls the handler, and removing it a second
    time changes nothing. *)
Theorem remove_handler_unregisters (ss : list Subscription) (h : Handler)
    (ev : EventName) (sender : loc) :
  let e := subscriptions ss in
  (_handlers (Event.remove_handler h e) = filter (λ x, x ≠ h) (_handlers e)) ∧
  (h ∉ handlers_called (fired ev (Event.remove_handler h e) sender)) ∧
  Event.remove_handler h (Event.remove_handler h e) = Event.remove_handler h e.
Proof.
  intros e.
  pose proof (remove_handler_filter h e (subscriptions_NoDup ss)) as Hfilter.
  assert (h ∉ _handlers (Event.remove_handler h e)) as Hout.
  { rewrite Hfilter. intros Hin. apply list_elem_of_filter in Hin as [Hne _].
    by apply Hne. }
  split_and!; [done| |].
  - by rewrite handlers_called_fired.
  - unfold Event.remove_handler at 1. by rewrite bool_decide_eq_false_2.
Qed.

Lemma list_remove_snoc (h : Handler) (l : list Handler) :
  h ∉ l → Event.list_remove h (l ++ [h]) = l.
Proof.
  induction l as [|y l IH]; intros Hin; simpl.
  - by rewrite bool_decide_eq_true_2.
  - apply not_elem_of_cons in Hin as [Hne Hin].
    rewrite bool_decide_eq_false_2 by congruence. by rewrite IH.
Qed.

(** X2.  Subscribing a handler that is not registered and unsubscribing
    it again gives the event back as it was; subscribing it once more
    puts it last in the calling order. *)
Theorem add_then_remove_handler (h : Handler) (e : Event) :
  h ∉ _handlers e →
  Event.remove_handler h (Event.add_handler h e) = e ∧
  _handlers (Event.add_handler h (Event.remove_handler h (Event.add_handler h e)))
  = _handlers e ++ [h].
Proof.
  intros Hout.
  assert (Event.remove_handler h (Event.add_handler h e) = e) as Hback.
  { unfold Event.add_handler. rewrite bool_decide_eq_false_2 by done.
    unfold Event.remove_handler. simpl.
    rewrite bool_decide_eq_true_2 by (apply elem_of_app; right; by apply list_elem_of_singleton).
    rewrite list_remove_snoc by done. by destruct e. }
  split; [done|]. rewrite Hback. unfold Event.add_handler.
  by rewrite bool_decide_eq_false_2.
Qed.

Lemma add_then_remove_handler_example :
  Event.remove_handler on_recipe_failed_handler
    (Event.add_handler on_recipe_failed_handler
       (subscriptions [AddHandler on_recipe_spawned_handler]))
  = subscriptions [AddHandler on_recipe_spawned_handler].
Proof.
  apply (add_then_remove_handler on_recipe_failed_handler
           (subscriptions [AddHandler on_recipe_spawned_handler])).
  intros Hin. apply list_elem_of_singleton in Hin. discriminate.
Defined.




(** ** The books of a manager *)

Lemma fired_count_app ev s tr1 tr2 :
  fired_count ev s (tr1 ++ tr2) = fired_count ev s tr1 + fired_count ev s tr2.
Proof. unfold fired_count. by rewrite filter_app, length_app. Qed.

Lemma fired_count_handlers ev s hs :
  fired_count ev s (flat_map (handler_obs s) hs) = 0.
Proof.
  induction hs as [|h hs IH]; [done|].
  cbn [flat_map]. rewrite fired_count_app, IH.
  unfold handler_obs, fired_count. by destruct (handler_fault h).
Qed.

Lemma fired_count_fired ev ev' e s :
  fired_count ev s (fired ev' e s) = if bool_decide (ev' = ev) then 1 else 0.
Proof.
  unfold fired. change (Fired ev' s :: ?l) with ([Fired ev' s] ++ l).
  rewrite fired_count_app, fired_count_handlers, Nat.add_0_r.
  unfold fired_count. rewrite filter_cons, filter_nil.
  case_bool_decide as Heq.
  - subst. by rewrite decide_True.
  - rewrite decide_False; [done|]. congruence.
Qed.

Lemma fired_count_logged ev s level msg tr :
  fired_count ev s (Logged level msg :: tr) = fired_count ev s tr.
Proof. unfold fired_count. by rewrite filter_cons, decide_False. Qed.

Lemma books_quiet self c (m m' : KitchenGameManager) (q : list RecipeSO)
    (tr tr_after extra : list Obs) (last : option float) :
  _waiting_recipe_so_list m' = _waiting_recipe_so_list m →
  _recipe_list_so m' = _recipe_list_so m →
  _successful_recipes_amount m' = _successful_recipes_amount m →
  _last_update_time m' = last →
  tr_after = tr ++ extra →
  fired_count RecipeSpawned self extra = 0 →
  fired_count RecipeCompleted self extra = 0 →
  fired_count RecipeSuccess self extra = 0 →
  ∃ m'' q' tr',
    Some m' = Some m'' ∧
    _waiting_recipe_so_list m'' = _waiting_recipe_so_list m ∧
    _recipe_list_so m'' = _recipe_list_so m ∧
    Some q = Some q' ∧
    tr_after = tr ++ tr' ∧
    _successful_recipes_amount m'' =
      (_successful_recipes_amount m + Z.of_nat (fired_count RecipeSuccess self tr'))%Z ∧
    fired_count RecipeCompleted self tr' = fired_count RecipeSuccess self tr' ∧
    length q' + fired_count RecipeSuccess self tr' =
      length q + fired_count RecipeSpawned self tr' ∧
    (∀ r, r ∈ q' → r ∈ q ∨
       ∃ now random, c = CallUpdate now random ∧
                     random (recipe_so_list (_recipe_list_so m)) = Ok r) ∧
    _last_update_time m'' = last.
Proof.
  intros Hloc Hcat Hcount Hlast Htr Hsp Hco Hsu.
  exists m', q, extra. rewrite Hsp, Hco, Hsu. split_and!; try done.
  - lia.
  - intros r ?. by left.
Qed.

Lemma fired_count_rejected self m level msg :
  fired_count RecipeSpawned self
    (Logged level msg :: fired RecipeFailed (on_recipe_failed m) self) = 0 ∧
  fired_count RecipeCompleted self
    (Logged level msg :: fired RecipeFailed (on_recipe_failed m) self) = 0 ∧
  fired_count RecipeSuccess self
    (Logged level msg :: fired RecipeFailed (on_recipe_failed m) self) = 0.
Proof. by rewrite !fired_count_logged, !fired_count_fired. Qed.

(** What one call does to the books of a manager. *)
Lemma call_account self c w m q :
  managers w !! self = Some m →
  recipe_lists w !! _waiting_recipe_so_list m = Some q →
  ∃ m' q' tr',
    managers (snd (run_call self c w)) !! self = Some m' ∧
    _waiting_recipe_so_list m' = _waiting_recipe_so_list m ∧
    _recipe_list_so m' = _recipe_list_so m ∧
    recipe_lists (snd (run_call self c w)) !! _waiting_recipe_so_list m = Some q' ∧
    trace (snd (run_call self c w)) = trace w ++ tr' ∧
    _successful_recipes_amount m' =
      (_successful_recipes_amount m + Z.of_nat (fired_count RecipeSuccess self tr'))%Z ∧
    fired_count RecipeCompleted self tr' = fired_count RecipeSuccess self tr' ∧
    length q' + fired_count RecipeSuccess self tr' =
      length q + fired_count RecipeSpawned self tr' ∧
    (∀ r, r ∈ q' → r ∈ q ∨
       ∃ now random, c = CallUpdate now random ∧
                     random (recipe_so_list (_recipe_list_so m)) = Ok r) ∧
    _last_update_time m' = last_clock [c] (_last_update_time m).
Proof.
  intros Hm Hq.
  pose proof (λ level msg, fired_count_rejected self m level msg) as Hrej.
  destruct c as [now random|plate|target|target|again| |ev h|ev h| |plate ko|f];
    cbn [run_call last_clock foldl].
  - rewrite (update_run _ _ _ _ _ Hm). cbv zeta. rewrite Hq.
    destruct (timer_after m now <=? 0)%float;
      [|cbn [snd]; world_simpl; rewrite lookup_insert_eq, ?Hq;
        by eapply (books_quiet _ _ m _ q (trace w) _ []); rewrite ?app_nil_r].
    destruct (gate_reading w) as [[|]|e];
      [|cbn [snd]; world_simpl; rewrite lookup_insert_eq, ?Hq;
        by eapply (books_quiet _ _ m _ q (trace w) _ []); rewrite ?app_nil_r..].
    destruct (Nat.ltb (length q) WAITING_RECIPES_MAX);
      [|cbn [snd]; world_simpl; rewrite lookup_insert_eq, ?Hq;
        by eapply (books_quiet _ _ m _ q (trace w) _ []); rewrite ?app_nil_r].
    destruct (random _) as [r|e] eqn:Hr; cbn [snd]; world_simpl;
      rewrite ?lookup_insert_eq, ?Hq;
      [|by eapply (books_quiet _ _ m _ q (trace w) _ []); rewrite ?app_nil_r].
    eexists _, (q ++ [r]), _. split_and!; try done.
    + rewrite fired_count_fired. simpl. lia.
    + by rewrite !fired_count_fired.
    + rewrite !fired_count_fired, length_app. simpl. lia.
    + intros r' Hin. apply elem_of_app in Hin as [?|Hin]; [by left|].
      apply list_elem_of_singleton in Hin as ->. right. by exists now, random.
  - rewrite (deliver_recipe_run _ _ _ _ Hm).
    destruct plate as [p|];
      [|cbn [snd]; unfold rejected; world_simpl; rewrite Hm, Hq;
        by eapply (books_quiet _ _ m m q); try apply Hrej].
    destruct (kitchen_object_lists w !! _kitchen_object_so_list p) as [ings|];
      [|cbn [snd]; rewrite Hm, Hq;
        by eapply (books_quiet _ _ m m q (trace w) _ []); rewrite ?app_nil_r].
    cbv zeta. destruct ings as [|ko kos];
      [cbn [snd]; unfold rejected; world_simpl; rewrite Hm, Hq;
        by eapply (books_quiet _ _ m m q); try apply Hrej|].
    rewrite Hq. destruct q as [|r0 rest];
      [cbn [snd]; unfold rejected; world_simpl; rewrite Hm, Hq;
        by eapply (books_quiet _ _ m m []); try apply Hrej|].
    destruct (first_match _ _) as [[i r]|] eqn:Hfind;
      [|cbn [snd]; unfold rejected; world_simpl; rewrite Hm, Hq;
        by eapply (books_quiet _ _ m m (r0 :: rest)); try apply Hrej].
    apply first_match_Some in Hfind as (Hi & _ & _).
    unfold delivered. cbn [snd]. world_simpl. rewrite !lookup_insert_eq.
    eexists _, (delete i (r0 :: rest)), _. split_and!; try done.
    + rewrite fired_count_logged, fired_count_app, !fired_count_fired. simpl. lia.
    + by rewrite !fired_count_logged, !fired_count_app, !fired_count_fired.
    + rewrite !fired_count_logged, !fired_count_app, !fired_count_fired.
      rewrite length_delete by by eexists.
      apply lookup_lt_Some in Hi. simpl in *. lia.
    + intros r' Hin. left. eapply elem_of_sublist; [done|apply sublist_delete].
  - unfold KitchenGameManager.start_game. rewrite switch_run.
    destruct (managers w !! target) as [g|] eqn:Hg; cbn [snd]; world_simpl.
    2:{ rewrite Hm, Hq.
        by eapply (books_quiet _ _ m m q (trace w) _ []); rewrite ?app_nil_r. }
    destruct (decide (target = self)) as [->|Hne].
    + rewrite lookup_insert_eq, Hq. simplify_eq.
      by eapply (books_quiet _ _ m _ q (trace w) _ []); rewrite ?app_nil_r.
    + rewrite lookup_insert_ne by done. rewrite Hm, Hq.
      by eapply (books_quiet _ _ m m q (trace w) _ []); rewrite ?app_nil_r.
  - unfold KitchenGameManager.stop_game. rewrite switch_run.
    destruct (managers w !! target) as [g|] eqn:Hg; cbn [snd]; world_simpl.
    2:{ rewrite Hm, Hq.
        by eapply (books_quiet _ _ m m q (trace w) _ []); rewrite ?app_nil_r. }
    destruct (decide (target = self)) as [->|Hne].
    + rewrite lookup_insert_eq, Hq. simplify_eq.
      by eapply (books_quiet _ _ m _ q (trace w) _ []); rewrite ?app_nil_r.
    + rewrite lookup_insert_ne by done. rewrite Hm, Hq.
      by eapply (books_quiet _ _ m m q (trace w) _ []); rewrite ?app_nil_r.
  - unfold bind, ret. rewrite get_instance_run.
    destruct (KitchenGameManager_instance w);
      [cbn [snd]; rewrite Hm, Hq;
       by eapply (books_quiet _ _ m m q (trace w) _ []); rewrite ?app_nil_r|].
    destruct again as [recipe_list_so|];
      [|cbn [snd]; rewrite Hm, Hq;
        by eapply (books_quiet _ _ m m q (trace w) _ []); rewrite ?app_nil_r].
    cbn [snd]. world_simpl.
    rewrite !lookup_insert_ne by (apply fresh_ne_allocated; by eexists).
    rewrite Hm, Hq.
    by eapply (books_quiet _ _ m m q (trace w) _ []); rewrite ?app_nil_r.
  - cbn [snd KitchenGameManager.reset_instance]. world_simpl. rewrite Hm, Hq.
    by eapply (books_quiet _ _ m m q (trace w) _ []); rewrite ?app_nil_r.
  - unfold subscribe. rewrite (modify_manager_ok _ _ _ _ Hm).
    cbn [snd]. world_simpl. rewrite lookup_insert_eq, Hq.
    by eapply (books_quiet _ _ m _ q (trace w) _ []); rewrite ?app_nil_r.
  - unfold unsubscribe. rewrite (modify_manager_ok _ _ _ _ Hm).
    cbn [snd]. world_simpl. rewrite lookup_insert_eq, Hq.
    by eapply (books_quiet _ _ m _ q (trace w) _ []); rewrite ?app_nil_r.
  - set (w' := snd _).
    assert (managers w' = managers w) as -> by reflexivity.
    assert (recipe_lists w' = recipe_lists w) as -> by reflexivity.
    assert (trace w' = trace w) as -> by reflexivity.
    rewrite Hm, Hq.
    by eapply (books_quiet _ _ m m q (trace w) _ []); rewrite ?app_nil_r.
  - unfold PlateKitchenObject.add_kitchen_object, bind, read_kitchen_object_list.
    destruct (kitchen_object_lists w !! _kitchen_object_so_list plate);
      cbn [snd]; world_simpl; rewrite Hm, Hq;
      by eapply (books_quiet _ _ m m q (trace w) _ []); rewrite ?app_nil_r.
  - rewrite (bind_ok _ _ _ _ _ (get_waiting_recipe_so_list_run _ _ _ _ Hm Hq)).
    unfold mutate_recipe_list. erewrite bind_ok; cycle 1.
    { apply read_recipe_list_ok. world_simpl. apply lookup_insert_eq. }
    assert (fresh (dom (recipe_lists w)) ≠ _waiting_recipe_so_list m) as Hne
      by by apply fresh_ne_allocated.
    cbn [snd write_recipe_list]. world_simpl. rewrite !lookup_insert_ne by done.
    rewrite Hm, Hq.
    by eapply (books_quiet _ _ m m q (trace w) _ []); rewrite ?app_nil_r.
Qed.

Lemma last_clock_cons c cs last :
  last_clock (c :: cs) last = last_clock cs (last_clock [c] last).
Proof. reflexivity. Qed.

Lemma calls_account self cs w m q :
  managers w !! self = Some m →
  recipe_lists w !! _waiting_recipe_so_list m = Some q →
  ∃ m' q' tr',
    managers (run_calls self cs w) !! self = Some m' ∧
    _waiting_recipe_so_list m' = _waiting_recipe_so_list m ∧
    _recipe_list_so m' = _recipe_list_so m ∧
    recipe_lists (run_calls self cs w) !! _waiting_recipe_so_list m = Some q' ∧
    trace (run_calls self cs w) = trace w ++ tr' ∧
    _successful_recipes_amount m' =
      (_successful_recipes_amount m + Z.of_nat (fired_count RecipeSuccess self tr'))%Z ∧
    fired_count RecipeCompleted self tr' = fired_count RecipeSuccess self tr' ∧
    length q' + fired_count RecipeSuccess self tr' =
      length q + fired_count RecipeSpawned self tr' ∧
    (Forall chooses_from_catalog cs →
     ∀ r, r ∈ q' → r ∈ q ∨ r ∈ recipe_so_list (_recipe_list_so m)) ∧
    _last_update_time m' = last_clock cs (_last_update_time m).
Proof.
  revert w m q. induction cs as [|c cs IH]; intros w m q Hm Hq.
  - exists m, q, []. rewrite app_nil_r. split_and!; try done.
    + unfold fired_count. simpl. lia.
    + intros _ r ?. by left.
  - destruct (call_account self c w m q Hm Hq)
      as (m1 & q1 & tr1 & Hm1 & Hloc1 & Hcat1 & Hq1 & Htr1 & Hn1 & Hc1 & Hlen1 & Hin1 & Hlast1).
    rewrite <- Hloc1 in Hq1.
    destruct (IH _ m1 q1 Hm1 Hq1)
      as (m2 & q2 & tr2 & Hm2 & Hloc2 & Hcat2 & Hq2 & Htr2 & Hn2 & Hc2 & Hlen2 & Hin2 & Hlast2).
    exists m2, q2, (tr1 ++ tr2). cbn [run_calls].
    rewrite !fired_count_app. split_and!.
    + done.
    + congruence.
    + congruence.
    + by rewrite <- Hloc1.
    + by rewrite Htr2, Htr1, app_assoc.
    + lia.
    + lia.
    + lia.
    + intros Hcs r Hr. apply Forall_cons in Hcs as [Hc Hcs].
      destruct (Hin2 Hcs r Hr) as [Hr1|Hr1]; [|right; by rewrite <- Hcat1].
      destruct (Hin1 r Hr1) as [?|(now & random & -> & Hdraw)]; [by left|].
      right. by apply Hc.
    + by rewrite last_clock_cons, Hlast2, Hlast1.
Qed.

(** X4.  Over any sequence of calls, the success counter grows by exactly
    the number of times the success event was fired, which is also the
    number of times the completed event was fired; so it never
    decreases. *)
Theorem success_counter_counts_success_events (w : World) (self : loc)
    (m : KitchenGameManager) (q : list RecipeSO) (calls : list Call) :
  managers w !! self = Some m →
  recipe_lists w !! _waiting_recipe_so_list m = Some q →
  ∃ (tr : list Obs) (m' : KitchenGameManager),
    trace (run_calls self calls w) = trace w ++ tr ∧
    managers (run_calls self calls w) !! self = Some m' ∧
    _successful_recipes_amount m' =
      (_successful_recipes_amount m + Z.of_nat (fired_count RecipeSuccess self tr))%Z ∧
    KitchenGameManager.get_successful_recipes_amount self (run_calls self calls w) =
      (Ok (_successful_recipes_amount m + Z.of_nat (fired_count RecipeSuccess self tr))%Z,
       run_calls self calls w) ∧
    fired_count RecipeCompleted self tr = fired_count RecipeSuccess self tr.
Proof.
  intros Hm Hq.
  destruct (calls_account self calls w m q Hm Hq)
    as (m' & q' & tr & Hm' & _ & _ & _ & Htr & Hn & Hc & _).
  exists tr, m'. split_and!; [done..| |done].
  unfold KitchenGameManager.get_successful_recipes_amount.
  rewrite (bind_ok _ _ _ _ _ (get_manager_ok _ _ _ Hm')). unfold ret. by rewrite Hn.
Qed.

(** The sample session on the registered singleton of the usage example:
    one delivery is accepted. *)
Lemma success_counter_counts_success_events_example :
  ∃ (tr : list Obs) (m' : KitchenGameManager),
    trace (run_calls 1%positive sample_session registered_world)
    = trace registered_world ++ tr ∧
    managers (run_calls 1%positive sample_session registered_world) !! 1%positive
    = Some m' ∧
    _successful_recipes_amount m' =
      (_successful_recipes_amount (new_manager recipe_list 1%positive)
       + Z.of_nat (fired_count RecipeSuccess 1%positive tr))%Z ∧
    KitchenGameManager.get_successful_recipes_amount 1%positive
      (run_calls 1%positive sample_session registered_world)
    = (Ok (_successful_recipes_amount (new_manager recipe_list 1%positive)
           + Z.of_nat (fired_count RecipeSuccess 1%positive tr))%Z,
       run_calls 1%positive sample_session registered_world) ∧
    fired_count RecipeCompleted 1%positive tr = fired_count RecipeSuccess 1%positive tr.
Proof.
  exact (success_counter_counts_success_events registered_world 1%positive
           (new_manager recipe_list 1%positive) [] sample_session eq_refl eq_refl).
Defined.

(** X5.  Over any sequence of calls, the length of the pending queue is
    what it was, plus the number of spawned events fired, minus the number
    of success events fired: orders enter the queue only by a spawn and
    leave it only by an accepted delivery. *)
Theorem queue_length_is_spawned_minus_delivered (w : World) (self : loc)
    (m : KitchenGameManager) (q : list RecipeSO) (calls : list Call) :
  managers w !! self = Some m →
  recipe_lists w !! _waiting_recipe_so_list m = Some q →
  ∃ (q' : list RecipeSO) (tr : list Obs),
    queue_of self (run_calls self calls w) = Some q' ∧
    trace (run_calls self calls w) = trace w ++ tr ∧
    length q' + fired_count RecipeSuccess self tr =
      length q + fired_count RecipeSpawned self tr.
Proof.
  intros Hm Hq.
  destruct (calls_account self calls w m q Hm Hq)
    as (m' & q' & tr & Hm' & Hloc & _ & Hq' & Htr & _ & _ & Hlen & _).
  exists q', tr. split_and!; [|done..].
  unfold queue_of. rewrite Hm'. simpl. by rewrite Hloc.
Qed.

(** The sample session on the registered singleton of the usage example:
    two orders are spawned and one is delivered. *)
Lemma queue_length_is_spawned_minus_delivered_example :
  ∃ (q' : list RecipeSO) (tr : list Obs),
    queue_of 1%positive (run_calls 1%positive sample_session registered_world)
    = Some q' ∧
    trace (run_calls 1%positive sample_session registered_world)
    = trace registered_world ++ tr ∧
    length q' + fired_count RecipeSuccess 1%positive tr =
      length (@nil RecipeSO) + fired_count RecipeSpawned 1%positive tr.
Proof.
  exact (queue_length_is_spawned_minus_delivered registered_world 1%positive
           (new_manager recipe_list 1%positive) [] sample_session eq_refl eq_refl).
Defined.

Lemma random_choice_choice_like k : choice_like (random_choice k).
Proof.
  intros seq r. unfold random_choice.
  destruct (seq !! (k mod length seq)) as [r'|] eqn:Hr; [|done].
  intros [= <-]. by eapply list_elem_of_lookup_2.
Qed.

(** X6.  When the random source only returns elements of the sequence it
    is given, as [random.choice] does, every pending order of a manager is
    a recipe of the catalog the manager was constructed with. *)
Theorem pending_orders_come_from_catalog (recipe_list_so : RecipeListSO)
    (w0 w1 : World) (self : loc) (calls : list Call) :
  constructed recipe_list_so w0 self w1 →
  Forall chooses_from_catalog calls →
  ∃ q : list RecipeSO,
    queue_of self (run_calls self calls w1) = Some q ∧
    ∀ r, r ∈ q → r ∈ recipe_so_list recipe_list_so.
Proof.
  intros Hnew Hcalls. apply constructed_inv in Hnew as (Hm & Hq & _).
  destruct (calls_account _ calls w1 _ [] Hm Hq)
    as (m' & q' & tr & Hm' & Hloc & _ & Hq' & _ & _ & _ & _ & Hin & _).
  exists q'. split.
  - unfold queue_of. rewrite Hm'. simpl. by rewrite Hloc.
  - intros r Hr. destruct (Hin Hcalls r Hr) as [Hnil|?]; [|done].
    by apply elem_of_nil in Hnil.
Qed.

Lemma pending_orders_come_from_catalog_example :
  ∃ q : list RecipeSO,
    queue_of 1%positive (run_calls 1%positive sample_session registered_world)
    = Some q ∧
    ∀ r, r ∈ q → r ∈ recipe_so_list recipe_list.
Proof.
  apply (pending_orders_come_from_catalog recipe_list empty_world).
  - right. split; reflexivity.
  - unfold sample_session.
    repeat first
      [ apply Forall_nil_2
      | apply Forall_cons_2; [first [exact I | exact (random_choice_choice_like _)]|] ].
Defined.

(** X7.  After any sequence of calls on a new manager, the recorded time
    of the last update is the clock reading of the last [update] call,
    and is unset when there was none; an [update] that raises records its
    reading too. *)
Theorem last_update_time_is_last_clock_reading (recipe_list_so : RecipeListSO)
    (w0 w1 : World) (self : loc) (calls : list Call) :
  constructed recipe_list_so w0 self w1 →
  ∃ m' : KitchenGameManager,
    managers (run_calls self calls w1) !! self = Some m' ∧
    _last_update_time m' = last_clock calls None.
Proof.
  intros Hnew. apply constructed_inv in Hnew as (Hm & Hq & _).
  destruct (calls_account _ calls w1 _ [] Hm Hq)
    as (m' & q' & tr & Hm' & _ & _ & _ & _ & _ & _ & _ & _ & Hlast).
  by exists m'.
Qed.

Lemma last_update_time_is_last_clock_reading_example :
  ∃ m' : KitchenGameManager,
    managers (run_calls 1%positive sample_session registered_world) !! 1%positive
    = Some m' ∧
    _last_update_time m' = Some 9%float.
Proof.
  apply (last_update_time_is_last_clock_reading recipe_list empty_world
           registered_world 1%positive sample_session).
  right. split; reflexivity.
Defined.

(** ** The gate and the singleton *)

Ltac frame_same mg := exists mg; split_and!; done.

Ltac frame_assign self g mg Hne :=
  destruct (decide (g = self)) as [->|Hne];
  [ rewrite lookup_insert_eq; simplify_eq; eexists; split_and!; done
  | rewrite lookup_insert_ne by done; exists mg; split_and!; done ].

(** What one call does to the [_is_game_playing] attribute of any manager
    and to the class attribute [_instance]: only [start_game] and
    [stop_game] on a manager set its attribute, a manager other than
    [self] is changed by nothing else, and only [reset_instance] unsets
    [_instance]. *)
Lemma call_class_frame self c w :
  (∀ g mg, managers w !! g = Some mg →
     ∃ mg', managers (snd (run_call self c w)) !! g = Some mg' ∧
            _is_game_playing mg' = last_switch g [c] (_is_game_playing mg) ∧
            (g ≠ self → switches g c = false → mg' = mg)) ∧
  (is_reset c = false →
   ∀ s, KitchenGameManager_instance w = Some s →
        KitchenGameManager_instance (snd (run_call self c w)) = Some s).
Proof.
  destruct c as [now random|plate|target|target|again| |ev h|ev h| |plate ko|f];
    cbn [run_call last_switch foldl switches is_reset].
  - destruct (managers w !! self) as [m|] eqn:Hm.
    2:{ unfold KitchenGameManager.update.
        rewrite (bind_raised _ _ _ _ _ (get_manager_none _ _ Hm)).
        split; [|done]. intros g mg Hg. frame_same mg. }
    rewrite (update_run _ _ _ _ _ Hm). cbv zeta.
    destruct (timer_after m now <=? 0)%float;
      [|split; [|done]; intros g mg Hg; cbn [snd]; world_simpl;
        frame_assign self g mg Hne].
    destruct (gate_reading w) as [[|]|e];
      [|split; [|done]; intros g mg Hg; cbn [snd]; world_simpl;
        frame_assign self g mg Hne..].
    destruct (recipe_lists w !! _waiting_recipe_so_list m);
      [|split; [|done]; intros g mg Hg; cbn [snd]; world_simpl;
        frame_assign self g mg Hne].
    destruct (Nat.ltb _ _);
      [|split; [|done]; intros g mg Hg; cbn [snd]; world_simpl;
        frame_assign self g mg Hne].
    destruct (random _); (split; [|done]); intros g mg Hg; cbn [snd]; world_simpl;
      frame_assign self g mg Hne.
  - destruct (managers w !! self) as [m|] eqn:Hm.
    2:{ unfold KitchenGameManager.deliver_recipe.
        rewrite (bind_raised _ _ _ _ _ (get_manager_none _ _ Hm)).
        split; [|done]. intros g mg Hg. frame_same mg. }
    rewrite (deliver_recipe_run _ _ _ _ Hm).
    destruct plate as [p|]; [|split; [|done]; intros g mg Hg; frame_same mg].
    destruct (kitchen_object_lists w !! _kitchen_object_so_list p) as [ings|];
      [|split; [|done]; intros g mg Hg; frame_same mg].
    cbv zeta. destruct ings; [split; [|done]; intros g mg Hg; frame_same mg|].
    destruct (recipe_lists w !! _waiting_recipe_so_list m) as [q|];
      [|split; [|done]; intros g mg Hg; frame_same mg].
    destruct q; [split; [|done]; intros g mg Hg; frame_same mg|].
    destruct (first_match _ _) as [[i r1]|];
      [|split; [|done]; intros g mg Hg; frame_same mg].
    split; [|done]. intros g mg Hg. unfold delivered. cbn [snd]. world_simpl.
    frame_assign self g mg Hne.
  - unfold KitchenGameManager.start_game. rewrite switch_run.
    destruct (managers w !! target) as [t|] eqn:Ht; cbn [snd]; world_simpl;
      (split; [|done]); intros g mg Hg; case_bool_decide as Heq.
    + subst g. rewrite lookup_insert_eq. eexists. split_and!; done.
    + rewrite lookup_insert_ne by done. frame_same mg.
    + congruence.
    + frame_same mg.
  - unfold KitchenGameManager.stop_game. rewrite switch_run.
    destruct (managers w !! target) as [t|] eqn:Ht; cbn [snd]; world_simpl;
      (split; [|done]); intros g mg Hg; case_bool_decide as Heq.
    + subst g. rewrite lookup_insert_eq. eexists. split_and!; done.
    + rewrite lookup_insert_ne by done. frame_same mg.
    + congruence.
    + frame_same mg.
  - unfold bind, ret. rewrite get_instance_run.
    destruct (KitchenGameManager_instance w) as [s0|] eqn:Hinst;
      [split; [|intros _ s Hs; cbn [snd]; congruence];
       intros g mg Hg; frame_same mg|].
    destruct again as [recipe_list_so|];
      [|split; [|done]; intros g mg Hg; frame_same mg].
    cbn [snd]. world_simpl. split; [|done]. intros g mg Hg.
    rewrite lookup_insert_ne by (apply fresh_ne_allocated; by eexists).
    frame_same mg.
  - split; [|done]. intros g mg Hg. frame_same mg.
  - unfold subscribe, modify_manager.
    destruct (managers w !! self) as [m|] eqn:Hm;
      [|split; [|done]; intros g mg Hg; frame_same mg].
    split; [|done]. intros g mg Hg. cbn [snd]. world_simpl.
    frame_assign self g mg Hne.
  - unfold unsubscribe, modify_manager.
    destruct (managers w !! self) as [m|] eqn:Hm;
      [|split; [|done]; intros g mg Hg; frame_same mg].
    split; [|done]. intros g mg Hg. cbn [snd]. world_simpl.
    frame_assign self g mg Hne.
  - split; [|done]. intros g mg Hg. frame_same mg.
  - unfold PlateKitchenObject.add_kitchen_object, bind, read_kitchen_object_list.
    destruct (kitchen_object_lists w !! _kitchen_object_so_list plate);
      (split; [|done]); intros g mg Hg; frame_same mg.
  - unfold KitchenGameManager.get_waiting_recipe_so_list, mutate_recipe_list, bind,
      get_manager, read_recipe_list, new_recipe_list, write_recipe_list.
    destruct (managers w !! self) as [m|];
      [|split; [|done]; intros g mg Hg; frame_same mg].
    destruct (recipe_lists w !! _waiting_recipe_so_list m) as [q|];
      [|split; [|done]; intros g mg Hg; frame_same mg].
    world_simpl. rewrite lookup_insert_eq.
    split; [|done]. intros g mg Hg. frame_same mg.
Qed.

Lemma last_switch_cons g c cs flag :
  last_switch g (c :: cs) flag = last_switch g cs (last_switch g [c] flag).
Proof. reflexivity. Qed.

Lemma calls_class_frame self cs w :
  (∀ g mg, managers w !! g = Some mg →
     ∃ mg', managers (run_calls self cs w) !! g = Some mg' ∧
            _is_game_playing mg' = last_switch g cs (_is_game_playing mg) ∧
            (g ≠ self → forallb (λ c, negb (switches g c)) cs = true → mg' = mg)) ∧
  (forallb (λ c, negb (is_reset c)) cs = true →
   ∀ s, KitchenGameManager_instance w = Some s →
        KitchenGameManager_instance (run_calls self cs w) = Some s).
Proof.
  revert w. induction cs as [|c cs IH]; intros w.
  { split; [|done]. intros g mg Hg. by exists mg. }
  cbn [run_calls forallb].
  destruct (call_class_frame self c w) as [Hflag Hinst].
  destruct (IH (snd (run_call self c w))) as [Hflags Hinsts].
  split.
  - intros g mg Hg. destruct (Hflag g mg Hg) as (mg1 & Hg1 & Hf1 & Hsame1).
    destruct (Hflags g mg1 Hg1) as (mg2 & Hg2 & Hf2 & Hsame2).
    exists mg2. split_and!; [done| |].
    + by rewrite last_switch_cons, Hf2, Hf1.
    + intros Hne Hcs. apply andb_true_iff in Hcs as [Hc Hcs].
      apply negb_true_iff in Hc. rewrite (Hsame2 Hne Hcs). by apply Hsame1.
  - intros Hcs s Hs. apply andb_true_iff in Hcs as [Hc Hcs].
    apply negb_true_iff in Hc. apply (Hinsts Hcs). by apply Hinst.
Qed.

(** X8.  Whatever calls are made, the [_is_game_playing] attribute of a
    manager is what the last [start_game] or [stop_game] on that manager
    made it, and what it was before when there is none: [update],
    [deliver_recipe] and the other calls never set it.  So
    [is_game_playing] on a manager on which neither has been called since
    its construction raises [AttributeError]. *)
Theorem gate_follows_last_switch (self g : loc) (calls : list Call) (w : World)
    (mg : KitchenGameManager) :
  managers w !! g = Some mg →
  ∃ mg' : KitchenGameManager,
    managers (run_calls self calls w) !! g = Some mg' ∧
    _is_game_playing mg' = last_switch g calls (_is_game_playing mg) ∧
    KitchenGameManager.is_game_playing g (run_calls self calls w) =
      (match last_switch g calls (_is_game_playing mg) with
       | Some playing => Ok playing
       | None =>
           Raised (AttributeError
                     "'KitchenGameManager' object has no attribute '_is_game_playing'")
       end, run_calls self calls w).
Proof.
  intros Hg. destruct (calls_class_frame self calls w) as [Hflags _].
  destruct (Hflags g mg Hg) as (mg' & Hg' & Hflag & _).
  exists mg'. split_and!; [done..|].
  by rewrite (is_game_playing_run _ _ _ Hg'), Hflag.
Qed.

(** The registered singleton of the usage example: after an update and a
    delivery the attribute is still missing; after [start_game], an update
    and [stop_game], the game is not being played. *)
Lemma gate_follows_last_switch_example :
  fst (KitchenGameManager.is_game_playing 1%positive
         (run_calls 1%positive
            [CallUpdate 0%float (random_choice 0); CallDeliver None] registered_world))
  = Raised (AttributeError
              "'KitchenGameManager' object has no attribute '_is_game_playing'") ∧
  fst (KitchenGameManager.is_game_playing 1%positive
         (run_calls 1%positive
            [CallStartGame 1%positive; CallUpdate 0%float (random_choice 0);
             CallStopGame 1%positive; CallDeliver None] registered_world))
  = Ok false.
Proof.
  destruct (gate_follows_last_switch 1%positive 1%positive
              [CallUpdate 0%float (random_choice 0); CallDeliver None] registered_world
              (new_manager recipe_list 1%positive) eq_refl)
    as (mg1 & _ & _ & Hrun1).
  destruct (gate_follows_last_switch 1%positive 1%positive
              [CallStartGame 1%positive; CallUpdate 0%float (random_choice 0);
               CallStopGame 1%positive; CallDeliver None] registered_world
              (new_manager recipe_list 1%positive) eq_refl)
    as (mg2 & _ & _ & Hrun2).
  split; [by rewrite Hrun1 | by rewrite Hrun2].
Defined.

(** X9.  Once [get_instance] has registered the singleton, every later
    [get_instance], after any calls on any manager other than
    [reset_instance] and whatever catalog it is given (none included),
    returns that same manager and changes nothing; no second manager is
    constructed. *)
Theorem singleton_is_stable (recipe_list_so : RecipeListSO) (w : World) :
  KitchenGameManager_instance w = None →
  ∃ (self : loc) (w1 : World),
    KitchenGameManager.get_instance (Some recipe_list_so) w = (Ok self, w1) ∧
    KitchenGameManager_instance w1 = Some self ∧
    ∀ (g : loc) (calls : list Call) (again : option RecipeListSO),
      forallb (λ c, negb (is_reset c)) calls = true →
      KitchenGameManager.get_instance again (run_calls g calls w1) =
      (Ok self, run_calls g calls w1).
Proof.
  intros Hnone. rewrite get_instance_run, Hnone.
  eexists _, _. split; [done|]. split; [done|]. intros g calls again Hcalls.
  apply get_instance_registered.
  by apply (proj2 (calls_class_frame g calls _) Hcalls).
Qed.

Lemma singleton_is_stable_example :
  ∃ (self : loc) (w1 : World),
    KitchenGameManager.get_instance (Some recipe_list) empty_world = (Ok self, w1) ∧
    KitchenGameManager_instance w1 = Some self ∧
    ∀ (g : loc) (calls : list Call) (again : option RecipeListSO),
      forallb (λ c, negb (is_reset c)) calls = true →
      KitchenGameManager.get_instance again (run_calls g calls w1) =
      (Ok self, run_calls g calls w1).
Proof. exact (singleton_is_stable recipe_list empty_world eq_refl). Defined.

(** X10.  After [reset_instance], [get_instance] with no catalog raises
    [ValueError] again, and with a catalog it constructs and registers a
    new manager, with an empty queue of its own, at another reference: the
    manager that was registered before is still in the store, unchanged,
    but the new singleton has no [_is_game_playing] attribute, so the gate
    can no longer be read even though the game had been started. *)
Theorem reset_instance_forgets_but_keeps (w : World) (old : loc)
    (m : KitchenGameManager) (recipe_list_so : RecipeListSO) :
  KitchenGameManager_instance w = Some old →
  managers w !! old = Some m →
  let w1 := snd (KitchenGameManager.reset_instance w) in
  KitchenGameManager.get_instance None w1 =
    (Raised (ValueError "recipe_list_so is required for initial creation"), w1) ∧
  ∃ (new : loc) (w2 : World) (m2 : KitchenGameManager) (l : loc),
    KitchenGameManager.get_instance (Some recipe_list_so) w1 = (Ok new, w2) ∧
    new ≠ old ∧
    KitchenGameManager_instance w2 = Some new ∧
    managers w2 !! old = Some m ∧
    managers w2 !! new = Some m2 ∧
    _recipe_list_so m2 = recipe_list_so ∧
    _is_game_playing m2 = None ∧
    _waiting_recipe_so_list m2 = l ∧
    recipe_lists w2 !! l = Some [] ∧
    recipe_lists w !! l = None ∧
    gate_reading w2 =
      Raised (AttributeError
                "'KitchenGameManager' object has no attribute '_is_game_playing'").
Proof.
  intros Hinst Hold w1. split; [done|].
  assert (fresh (dom (managers w)) ≠ old) as Hne
    by (apply fresh_ne_allocated; by eexists).
  rewrite get_instance_run. subst w1.
  cbn [KitchenGameManager.reset_instance snd]. world_simpl.
  eexists _, _, _, _. split; [done|]. world_simpl.
  split_and!; [done|done|by rewrite lookup_insert_ne|apply lookup_insert_eq|done..| | |].
  - apply lookup_insert_eq.
  - apply fresh_lookup_None.
  - unfold gate_reading. world_simpl. by rewrite lookup_insert_eq.
Qed.

(** The registered singleton of the usage example, the game started on
    it, then reset and registered anew. *)
Lemma reset_instance_forgets_but_keeps_example :
  ∃ (new : loc) (w2 : World),
    gate_reading started_world = Ok true ∧
    KitchenGameManager.get_instance (Some recipe_list)
      (snd (KitchenGameManager.reset_instance started_world))
    = (Ok new, w2) ∧
    new ≠ 1%positive ∧
    gate_reading w2 =
      Raised (AttributeError
                "'KitchenGameManager' object has no attribute '_is_game_playing'").
Proof.
  destruct (reset_instance_forgets_but_keeps started_world 1%positive
              (set_is_game_playing (Some true) (new_manager recipe_list 1%positive))
              recipe_list eq_refl eq_refl)
    as (_ & new & w2 & m2 & l & Hget & Hne & _ & _ & _ & _ & _ & _ & _ & _ & Hgate).
  exists new, w2. split_and!; [reflexivity|done..].
Defined.

(** ** Updates, deliveries and plates *)






(** X12.  When a spawn is due and the random source raises, [update]
    raises that exception to its caller after the timer has been reset to
    SPAWN_RECIPE_TIMER_MAX and the reading recorded; nothing is queued, no
    event is fired and the success counter is as it was. *)
Theorem update_failed_draw_consumes_the_attempt (w : World) (self : loc)
    (m : KitchenGameManager) (waiting : list RecipeSO) (now : float)
    (random : list RecipeSO → Result RecipeSO) (e : exn) :
  managers w !! self = Some m →
  recipe_lists w !! _waiting_recipe_so_list m = Some waiting →
  (timer_after m now <=? 0)%float = true →
  gate_active w = true →
  length waiting < WAITING_RECIPES_MAX →
  random (recipe_so_list (_recipe_list_so m)) = Raised e →
  ∃ (w' : World) (m' : KitchenGameManager),
    KitchenGameManager.update self now random w = (Raised e, w') ∧
    managers w' !! self = Some m' ∧
    _spawn_recipe_timer m' = SPAWN_RECIPE_TIMER_MAX ∧
    _last_update_time m' = Some now ∧
    _successful_recipes_amount m' = _successful_recipes_amount m ∧
    recipe_lists w' = recipe_lists w ∧
    trace w' = trace w.
Proof.
  intros Hm Hq Hdue Hgate Hroom Hraise. apply gate_active_reading in Hgate.
  rewrite (update_run _ _ _ _ _ Hm). cbv zeta.
  rewrite Hdue, Hgate, Hq, Hraise.
  apply Nat.ltb_lt in Hroom. rewrite Hroom.
  eexists _, _. split; [done|]. world_simpl. rewrite lookup_insert_eq.
  by split_and!.
Qed.

(** A singleton registered with the empty catalog, the game started and
    the baseline taken at time 100: at 104.5 the draw fails. *)
Lemma update_failed_draw_consumes_the_attempt_example :
  ∃ (w' : World) (m' : KitchenGameManager),
    KitchenGameManager.update 1%positive 104.5%float (random_choice 0)
      (snd (sample_script {| recipe_so_list := [] |} 100%float [] [] empty_world))
    = (Raised (IndexError "Cannot choose from an empty sequence"), w') ∧
    managers w' !! 1%positive = Some m' ∧
    _spawn_recipe_timer m' = SPAWN_RECIPE_TIMER_MAX.
Proof.
  destruct (update_failed_draw_consumes_the_attempt
              (snd (sample_script {| recipe_so_list := [] |} 100%float [] [] empty_world))
              1%positive
              (sample_manager {| recipe_so_list := [] |}) [] 104.5%float
              (random_choice 0) (IndexError "Cannot choose from an empty sequence")
              eq_refl eq_refl eq_refl eq_refl)
    as (w' & m' & Hrun & Hm' & Htimer & _).
  - simpl. unfold WAITING_RECIPES_MAX. lia.
  - reflexivity.
  - by exists w', m'.
Defined.

(** X13.  [deliver_recipe] leaves the queue as it was or removes one order
    whose recipe has at least one ingredient: an order of a recipe with no
    ingredients is never delivered, since the only plate with its counter
    is the empty plate, which is rejected first. *)
Theorem delivered_order_has_ingredients (w : World) (self : loc)
    (m : KitchenGameManager) (waiting : list RecipeSO)
    (plate : option PlateKitchenObject) :
  managers w !! self = Some m →
  recipe_lists w !! _waiting_recipe_so_list m = Some waiting →
  queue_of self (snd (KitchenGameManager.deliver_recipe self plate w)) = Some waiting ∨
  ∃ (i : nat) (r : RecipeSO),
    waiting !! i = Some r ∧
    ¬ no_ingredients r ∧
    queue_of self (snd (KitchenGameManager.deliver_recipe self plate w))
    = Some (delete i waiting).
Proof.
  intros Hm Hq. unfold queue_of.
  rewrite (deliver_recipe_run _ _ _ _ Hm).
  assert (∀ level msg w1,
            managers w1 = managers w → recipe_lists w1 = recipe_lists w →
            managers (rejected self m level msg w1) !! self
              ≫= (λ m0, recipe_lists (rejected self m level msg w1)
                          !! _waiting_recipe_so_list m0) = Some waiting) as Hrej.
  { intros level msg w1 Hms Hrl. unfold rejected. world_simpl.
    rewrite Hms, Hrl, Hm. simpl. by rewrite Hq. }
  destruct plate as [p|]; [|left; by apply Hrej].
  destruct (kitchen_object_lists w !! _kitchen_object_so_list p) as [ings|];
    [|left; cbn [snd]; rewrite Hm; simpl; by rewrite Hq].
  cbv zeta. destruct ings as [|ko kos]; [left; by apply Hrej|].
  rewrite Hq. destruct waiting as [|r0 rest]; [left; by apply Hrej|].
  destruct (first_match _ _) as [[i r]|] eqn:Hfind; [|left; by apply Hrej].
  apply first_match_Some in Hfind as (Hi & Hsame & _).
  right. exists i, r. split_and!; [done| |].
  - unfold no_ingredients. intros Hnil. rewrite Hnil in Hsame.
    apply Permutation_length in Hsame. discriminate.
  - unfold delivered. cbn [snd]. world_simpl. rewrite lookup_insert_eq. simpl.
    by rewrite lookup_insert_eq.
Qed.

Lemma delivered_order_has_ingredients_example :
  queue_of 1%positive
    (snd (KitchenGameManager.deliver_recipe 1%positive (Some sample_plate)
            (sample_world recipe_list [sandwich_recipe; salad_recipe] [tomato; lettuce])))
  = Some [sandwich_recipe; salad_recipe] ∨
  ∃ (i : nat) (r : RecipeSO),
    [sandwich_recipe; salad_recipe] !! i = Some r ∧
    ¬ no_ingredients r ∧
    queue_of 1%positive
      (snd (KitchenGameManager.deliver_recipe 1%positive (Some sample_plate)
              (sample_world recipe_list [sandwich_recipe; salad_recipe] [tomato; lettuce])))
    = Some (delete i [sandwich_recipe; salad_recipe]).
Proof.
  exact (delivered_order_has_ingredients
           (sample_world recipe_list [sandwich_recipe; salad_recipe] [tomato; lettuce])
           1%positive (sample_manager recipe_list) [sandwich_recipe; salad_recipe]
           (Some sample_plate) eq_refl eq_refl).
Defined.

(** X14.  Two ingredient lists match exactly when their object ids are
    the same multiset: a list matches itself, matching is symmetric, and
    the names of the kitchen objects play no part. *)
Theorem ingredients_match_by_identifier_only
    (xs ys : list KitchenObjectSO) (f : string → string) :
  (KitchenGameManager._ingredients_match xs ys = true ↔ same_ingredients xs ys) ∧
  KitchenGameManager._ingredients_match xs xs = true ∧
  KitchenGameManager._ingredients_match xs ys = KitchenGameManager._ingredients_match ys xs ∧
  KitchenGameManager._ingredients_match (rename f <$> xs) ys
  = KitchenGameManager._ingredients_match xs ys.
Proof.
  split_and!.
  - apply ingredients_match_iff.
  - by apply ingredients_match_iff.
  - apply eq_true_iff_eq. rewrite !ingredients_match_iff.
    split; intros H; by symmetry.
  - apply eq_true_iff_eq. rewrite !ingredients_match_iff.
    rewrite <- list_fmap_compose.
    by replace (object_id ∘ rename f) with object_id by reflexivity.
Qed.

Lemma add_all_run (p : PlateKitchenObject) kos w q0 :
  kitchen_object_lists w !! _kitchen_object_so_list p = Some q0 →
  ∃ w', for_each kos (PlateKitchenObject.add_kitchen_object p) w = (Ok tt, w') ∧
        kitchen_object_lists w' =
          <[_kitchen_object_so_list p := q0 ++ kos]> (kitchen_object_lists w).
Proof.
  revert w q0. induction kos as [|ko kos IH]; intros w q0 Hp.
  - exists w. split; [done|]. by rewrite app_nil_r, insert_id.
  - cbn [for_each]. unfold bind at 1.
    unfold PlateKitchenObject.add_kitchen_object at 1. unfold bind at 1.
    unfold read_kitchen_object_list at 1. rewrite Hp.
    edestruct (IH (set_kitchen_object_lists
                     (λ h, <[_kitchen_object_so_list p := q0 ++ [ko]]> h) w)
                 (q0 ++ [ko])) as (w' & Hrun & Hkol).
    { world_simpl. apply lookup_insert_eq. }
    exists w'. split; [done|]. rewrite Hkol. world_simpl.
    by rewrite insert_insert_eq, <- app_assoc.
Qed.

(** X15.  A new plate to which kitchen objects are added one by one holds
    them all, duplicates included, in the order they were added, and its
    getter returns them in a new list object: neither the plate's list nor
    the copy is a list object that existed before. *)
Theorem plate_returns_what_was_added (kos : list KitchenObjectSO) (w : World) :
  ∃ (plate : PlateKitchenObject) (copy : loc) (w' : World),
    fill_plate kos w = (Ok (plate, copy), w') ∧
    kitchen_object_lists w' !! _kitchen_object_so_list plate = Some kos ∧
    kitchen_object_lists w' !! copy = Some kos ∧
    copy ≠ _kitchen_object_so_list plate ∧
    kitchen_object_lists w !! _kitchen_object_so_list plate = None ∧
    kitchen_object_lists w !! copy = None.
Proof.
  unfold fill_plate. unfold bind at 1.
  unfold PlateKitchenObject.__init__, bind at 1. unfold new_kitchen_object_list, ret.
  set (l := fresh (dom (kitchen_object_lists w))).
  set (w1 := set_kitchen_object_lists _ w).
  set (plate := {| _kitchen_object_so_list := l |}).
  destruct (add_all_run plate kos w1 []) as (w2 & Hrun & Hkol).
  { subst w1. world_simpl. apply lookup_insert_eq. }
  rewrite (bind_ok _ _ _ _ _ Hrun).
  assert (kitchen_object_lists w2 !! l = Some kos) as Hl.
  { rewrite Hkol. apply lookup_insert_eq. }
  rewrite (bind_ok _ _ _ _ _ (get_kitchen_object_so_list_run plate w2 kos Hl)).
  assert (fresh (dom (kitchen_object_lists w2)) ≠ l) as Hne
    by (apply fresh_ne_allocated; by eexists).
  eexists plate, _, _. split; [done|]. world_simpl. split_and!.
  - by rewrite lookup_insert_ne.
  - apply lookup_insert_eq.
  - done.
  - apply fresh_lookup_None.
  - pose proof (fresh_lookup_None (kitchen_object_lists w2)) as Hnone.
    remember (fresh (dom (kitchen_object_lists w2))) as c eqn:Hc. clear Hc.
    rewrite Hkol in Hnone. subst w1 plate. cbn in Hnone.
    rewrite lookup_insert_ne in Hnone by done.
    by rewrite lookup_insert_ne in Hnone by done.
Qed.

(** ** Several managers *)

(** A call on [self] writes to no list object of recipes that existed
    before but the queue of [self]. *)
Lemma call_recipe_lists_frame self c w m q l q2 :
  managers w !! self = Some m →
  recipe_lists w !! _waiting_recipe_so_list m = Some q →
  recipe_lists w !! l = Some q2 →
  l ≠ _waiting_recipe_so_list m →
  recipe_lists (snd (run_call self c w)) !! l = Some q2.
Proof.
  intros Hm Hq Hl Hne.
  destruct c as [now random|plate|target|target|again| |ev h|ev h| |plate ko|f];
    cbn [run_call].
  - rewrite (update_run _ _ _ _ _ Hm). cbv zeta. rewrite Hq.
    destruct (timer_after m now <=? 0)%float; [|done].
    destruct (gate_reading w) as [[|]|e]; [|done..].
    destruct (Nat.ltb _ _); [|done].
    destruct (random _); cbn [snd]; world_simpl; [|done].
    by rewrite lookup_insert_ne.
  - rewrite (deliver_recipe_run _ _ _ _ Hm).
    destruct plate as [p|]; [|done].
    destruct (kitchen_object_lists w !! _kitchen_object_so_list p) as [ings|]; [|done].
    cbv zeta. destruct ings; [done|].
    rewrite Hq. destruct q; [done|].
    destruct (first_match _ _) as [[i r1]|]; [|done].
    unfold delivered. cbn [snd]. world_simpl. by rewrite lookup_insert_ne.
  - unfold KitchenGameManager.start_game. rewrite switch_run.
    by destruct (managers w !! target).
  - unfold KitchenGameManager.stop_game. rewrite switch_run.
    by destruct (managers w !! target).
  - unfold bind, ret. rewrite get_instance_run.
    destruct (KitchenGameManager_instance w); [done|].
    destruct again as [recipe_list_so|]; [|done].
    cbn [snd]. world_simpl.
    by rewrite lookup_insert_ne by (apply fresh_ne_allocated; by eexists).
  - done.
  - unfold subscribe. by rewrite (modify_manager_ok _ _ _ _ Hm).
  - unfold unsubscribe. by rewrite (modify_manager_ok _ _ _ _ Hm).
  - done.
  - unfold PlateKitchenObject.add_kitchen_object, bind, read_kitchen_object_list.
    by destruct (kitchen_object_lists w !! _kitchen_object_so_list plate).
  - rewrite (bind_ok _ _ _ _ _ (get_waiting_recipe_so_list_run _ _ _ _ Hm Hq)).
    unfold mutate_recipe_list. erewrite bind_ok; cycle 1.
    { apply read_recipe_list_ok. world_simpl. apply lookup_insert_eq. }
    assert (fresh (dom (recipe_lists w)) ≠ l) as Hfresh
      by (apply fresh_ne_allocated; by eexists).
    cbn [snd write_recipe_list]. world_simpl.
    by rewrite !lookup_insert_ne by done.
Qed.

(** X16.  Calls made with one manager in hand never change another manager
    object, unless they are [start_game] or [stop_game] on that other
    manager, and never change the queue of another manager, each manager
    having a list object of its own for its queue. *)
Theorem calls_leave_other_managers_alone (w : World) (self other : loc)
    (m m2 : KitchenGameManager) (q q2 : list RecipeSO) (calls : list Call) :
  managers w !! self = Some m →
  recipe_lists w !! _waiting_recipe_so_list m = Some q →
  managers w !! other = Some m2 →
  recipe_lists w !! _waiting_recipe_so_list m2 = Some q2 →
  other ≠ self →
  _waiting_recipe_so_list m2 ≠ _waiting_recipe_so_list m →
  forallb (λ c, negb (switches other c)) calls = true →
  managers (run_calls self calls w) !! other = Some m2 ∧
  queue_of other (run_calls self calls w) = Some q2.
Proof.
  revert w m q.
  induction calls as [|c calls IH]; intros w m q Hm Hq Hm2 Hq2 Hne Hqne Hcalls.
  - cbn [run_calls]. split; [done|]. unfold queue_of. rewrite Hm2. done.
  - cbn [run_calls]. cbn [forallb] in Hcalls.
    apply andb_true_iff in Hcalls as [Hc Hcalls]. apply negb_true_iff in Hc.
    destruct (call_effect self c w m q Hm Hq) as (m' & q' & Hm' & Hloc & Hq' & _).
    destruct (proj1 (call_class_frame self c w) other m2 Hm2)
      as (m2' & Hm2' & _ & Hsame).
    rewrite (Hsame Hne Hc) in Hm2'.
    pose proof (call_recipe_lists_frame self c w m q _ q2 Hm Hq Hq2 Hqne) as Hq2'.
    rewrite <- Hloc in Hq'. apply (IH _ m' q'); try done. by rewrite Hloc.
Qed.

(** The sample session on the registered singleton, a second manager
    having been constructed beside it. *)
Lemma calls_leave_other_managers_alone_example :
  managers (run_calls 1%positive sample_session two_managers) !! 2%positive
    = Some (new_manager recipe_list 2%positive) ∧
  queue_of 2%positive (run_calls 1%positive sample_session two_managers) = Some [].
Proof.
  apply (calls_leave_other_managers_alone two_managers 1%positive 2%positive
           (new_manager recipe_list 1%positive) (new_manager recipe_list 2%positive)
           [] []); try reflexivity; discriminate.
Defined.

(** ** Updating before the game is started *)

(** X17.  The gate [update] reads is an attribute that only [start_game]
    and [stop_game] create.  So, on a store with no registered singleton
    and with the baseline taken at a finite time [t0], the first [update]
    by which the timer has expired raises: [ValueError] on a manager
    constructed by a call of the class, no singleton being registered, and
    [AttributeError] on the manager [get_instance] has registered, the game
    never having been started or stopped on it.  In both cases the timer
    has been reset and the reading recorded, nothing is queued and no event
    is fired. *)
Theorem update_before_start_game_raises (w0 : World) (recipe_list_so : RecipeListSO)
    (t0 t1 : float) (random : list RecipeSO → Result RecipeSO) :
  KitchenGameManager_instance w0 = None →
  is_finite t0 = true →
  (SPAWN_RECIPE_TIMER_MAX - (t1 - t0) <=? 0)%float = true →
  (∃ (self : loc) (w1 w2 w3 : World) (m3 : KitchenGameManager),
     KitchenGameManager.__init__ recipe_list_so w0 = (Ok self, w1) ∧
     KitchenGameManager.update self t0 random w1 = (Ok tt, w2) ∧
     KitchenGameManager.update self t1 random w2 =
       (Raised (ValueError "recipe_list_so is required for initial creation"), w3) ∧
     managers w3 !! self = Some m3 ∧
     _spawn_recipe_timer m3 = SPAWN_RECIPE_TIMER_MAX ∧
     _last_update_time m3 = Some t1 ∧
     queue_of self w3 = Some [] ∧
     trace w3 = trace w0) ∧
  (∃ (self : loc) (w1 w2 w3 : World) (m3 : KitchenGameManager),
     KitchenGameManager.get_instance (Some recipe_list_so) w0 = (Ok self, w1) ∧
     KitchenGameManager.update self t0 random w1 = (Ok tt, w2) ∧
     KitchenGameManager.update self t1 random w2 =
       (Raised (AttributeError
                  "'KitchenGameManager' object has no attribute '_is_game_playing'"),
        w3) ∧
     managers w3 !! self = Some m3 ∧
     _spawn_recipe_timer m3 = SPAWN_RECIPE_TIMER_MAX ∧
     _last_update_time m3 = Some t1 ∧
     queue_of self w3 = Some [] ∧
     trace w3 = trace w0).
Proof.
  intros Hnone Hfin Hdue.
  set (self := fresh (dom (managers w0))).
  set (l := fresh (dom (recipe_lists w0))).
  set (m1 := new_manager recipe_list_so l).
  set (m2 := set_last_update_time (Some t0) m1).
  split.
  - rewrite init_run. fold self l m1.
    set (w1 := set_managers _ _).
    assert (managers w1 !! self = Some m1) as Hm1
      by (subst w1; world_simpl; apply lookup_insert_eq).
    set (w2 := set_managers (λ ms, <[self := m2]> ms) w1).
    assert (managers w2 !! self = Some m2) as Hm2
      by (subst w2; world_simpl; apply lookup_insert_eq).
    assert (recipe_lists w2 !! l = Some []) as Hq2
      by (subst w2 w1; world_simpl; apply lookup_insert_eq).
    assert (gate_reading w2 =
            Raised (ValueError "recipe_list_so is required for initial creation"))
      as Hgate.
    { unfold gate_reading. change (KitchenGameManager_instance w2)
        with (KitchenGameManager_instance w0). by rewrite Hnone. }
    eexists self, w1, w2, _, _. split; [done|].
    split; [by apply first_update_run|].
    rewrite (update_run _ _ _ _ _ Hm2). cbv zeta. unfold timer_after.
    cbn [m2 m1 new_manager _last_update_time _spawn_recipe_timer
         set_last_update_time].
    rewrite Hdue, Hgate. split; [done|]. world_simpl.
    rewrite lookup_insert_eq. split_and!; try done.
    unfold queue_of. world_simpl. rewrite lookup_insert_eq. simpl. exact Hq2.
  - rewrite get_instance_run, Hnone. fold self l m1.
    set (w1 := set_KitchenGameManager_instance _ _).
    assert (managers w1 !! self = Some m1) as Hm1
      by (subst w1; world_simpl; apply lookup_insert_eq).
    set (w2 := set_managers (λ ms, <[self := m2]> ms) w1).
    assert (managers w2 !! self = Some m2) as Hm2
      by (subst w2; world_simpl; apply lookup_insert_eq).
    assert (recipe_lists w2 !! l = Some []) as Hq2
      by (subst w2 w1; world_simpl; apply lookup_insert_eq).
    assert (gate_reading w2 =
            Raised (AttributeError
                      "'KitchenGameManager' object has no attribute '_is_game_playing'"))
      as Hgate.
    { unfold gate_reading. change (KitchenGameManager_instance w2) with (Some self).
      cbv beta iota. by rewrite Hm2. }
    eexists self, w1, w2, _, _. split; [done|].
    split; [by apply first_update_run|].
    rewrite (update_run _ _ _ _ _ Hm2). cbv zeta. unfold timer_after.
    cbn [m2 m1 new_manager _last_update_time _spawn_recipe_timer
         set_last_update_time].
    rewrite Hdue, Hgate. split; [done|]. world_simpl.
    rewrite lookup_insert_eq. split_and!; try done.
    unfold queue_of. world_simpl. rewrite lookup_insert_eq. simpl. exact Hq2.
Qed.

(** On an empty store, with the usage example's catalog, the baseline at
    time 100 and the next update 4.5 seconds later. *)
Lemma update_before_start_game_raises_example :
  fst (KitchenGameManager.update 1%positive 104.5%float (random_choice 0)
         (snd (KitchenGameManager.update 1%positive 100%float (random_choice 0)
                 (snd (KitchenGameManager.__init__ recipe_list empty_world)))))
  = Raised (ValueError "recipe_list_so is required for initial creation") ∧
  fst (KitchenGameManager.update 1%positive 104.5%float (random_choice 0)
         (snd (KitchenGameManager.update 1%positive 100%float (random_choice 0)
                 registered_world)))
  = Raised (AttributeError
              "'KitchenGameManager' object has no attribute '_is_game_playing'").
Proof.
  destruct (update_before_start_game_raises empty_world recipe_list 100%float
              104.5%float (random_choice 0) eq_refl eq_refl eq_refl)
    as [(s1 & w1 & w2 & w3 & m3 & Hinit & Hbase & Hrun & _)
        (s1' & w1' & w2' & w3' & m3' & Hget & Hbase' & Hrun' & _)].
  apply (f_equal fst) in Hrun, Hrun'.
  apply (f_equal snd) in Hbase, Hbase'. cbn [snd] in Hbase, Hbase'. subst w2 w2'.
  pose proof (f_equal fst Hinit) as Hs1. pose proof (f_equal fst Hget) as Hs1'.
  apply (f_equal snd) in Hinit, Hget. cbn [snd] in Hinit, Hget. subst w1 w1'.
  vm_compute in Hs1, Hs1'. injection Hs1 as <-. injection Hs1' as <-.
  split; [exact Hrun | exact Hrun'].
Defined.

(** ** The sample data *)

(** The sample session leaves the sandwich pending and one success. *)
Example sample_session_run :
  queue_of 1%positive (run_calls 1%positive sample_session registered_world)
  = Some [sandwich_recipe] ∧
  fst (KitchenGameManager.get_successful_recipes_amount 1%positive
         (run_calls 1%positive sample_session registered_world)) = Ok 1%Z.
Proof. split; vm_compute; reflexivity. Qed.

(** The sample stores used above are stores the sample script leaves, the
    observations made on the way put aside. *)
Example sample_world_reached :
  set_trace (λ _, [])
    (snd (sample_script recipe_list 96%float [0] [tomato; lettuce] empty_world))
  = sample_world recipe_list [sandwich_recipe] [tomato; lettuce] ∧
  set_trace (λ _, [])
    (snd (sample_script recipe_list 96%float [1] [] empty_world))
  = sample_world recipe_list [salad_recipe] [] ∧
  set_trace (λ _, [])
    (snd (sample_script recipe_list 92%float [0; 1] [tomato; lettuce] empty_world))
  = sample_world recipe_list [sandwich_recipe; salad_recipe] [tomato; lettuce].
Proof. split_and!; vm_compute; reflexivity. Qed.
